(** * AmazonSESAdapter: a shallow embedding of [src/lib/AmazonSESAdapter.js]

    The adapter validates its configuration in the constructor, resolves a
    send request into message metadata ([_sendMail], synchronous part),
    then loads and interpolates the template bodies inside a [co] generator
    and hands the payload to the SES client.

    JavaScript values are modelled by [JS.jsval]; objects used as maps are
    finite maps from property names to values, their own properties; the
    lookup of a template by name also finds the names that a plain object
    inherits from [Object.prototype].  The
    file system, the [lodash.template] engine, [juice] and the SES client
    are capabilities collected in a [World]; every file read, every call
    of the transport and every write to the error console is recorded in a
    chronological trace of events. *)

From Stdlib Require Import ZArith.
From stdpp Require Import gmap strings list fin_maps pretty.

Local Open Scope string_scope.
Set Warnings "-register-all".

(** ** JavaScript values *)

Module JS.

(** The values that flow through the adapter.  Numbers are restricted to
    integers below 10^21 in magnitude, which print in decimal.  An object
    carries the name of the constructor it inherits from its prototype
    ([None] for an object without one, such as one created by
    [Object.create(null)]) and its own properties; an own property named
    [constructor] shadows the inherited one. *)
Inductive jsval : Type :=
  | JUndefined
  | JNull
  | JBool (b : bool)
  | JNum (n : Z)
  | JStr (s : string)
  | JArr (l : list jsval)
  | JObj (ctor : option string) (fields : gmap string jsval).

(** ToBoolean, as used by [!x], [x || y], [x && y] and [if (x)]. *)
Definition truthy (v : jsval) : bool :=
  match v with
  | JUndefined | JNull => false
  | JBool b => b
  | JNum n => negb (n =? 0)%Z
  | JStr s => negb (String.eqb s "")
  | JArr _ | JObj _ _ => true
  end.

(** [a || b] *)
Definition or (a b : jsval) : jsval := if truthy a then a else b.

(** [typeof v] *)
Definition typeof (v : jsval) : string :=
  match v with
  | JUndefined => "undefined"
  | JNull => "object"
  | JBool _ => "boolean"
  | JNum _ => "number"
  | JStr _ => "string"
  | JArr _ | JObj _ _ => "object"
  end.

(** [v.constructor.name] for a truthy [v]; [None] when [v.constructor] is
    undefined. *)
Definition constructor_name (v : jsval) : option string :=
  match v with
  | JUndefined | JNull => None
  | JBool _ => Some "Boolean"
  | JNum _ => Some "Number"
  | JStr _ => Some "String"
  | JArr _ => Some "Array"
  | JObj c _ => c
  end.

(** Separator-joined concatenation, as [Array.prototype.join]. *)
Fixpoint join (sep : string) (l : list string) : string :=
  match l with
  | [] => ""
  | [x] => x
  | x :: rest => x ++ sep ++ join sep rest
  end.

(** ToString, as used by template literals and by property access
    [o[v]].  Objects print through [Object.prototype.toString]; numbers
    print in decimal, as JavaScript prints integers below 10^21. *)
Fixpoint to_string (v : jsval) : string :=
  match v with
  | JUndefined => "undefined"
  | JNull => "null"
  | JBool true => "true"
  | JBool false => "false"
  | JNum n => pretty n
  | JStr s => s
  | JArr l =>
      join "," (List.map (fun x =>
        match x with
        | JUndefined | JNull => ""
        | _ => to_string x
        end) l)
  | JObj _ _ => "[object Object]"
  end.

(** The empty object literal [{}]. *)
Definition empty_object : jsval := JObj (Some "Object") ∅.

(** An object literal with the given own properties. *)
Definition object (fields : gmap string jsval) : jsval :=
  JObj (Some "Object") fields.

End JS.

Import JS.

(** ** Data model *)

(** The Parse user object: its attributes, read through [user.get(name)]. *)
Abbreviation User := (gmap string jsval).

(** [user.get(name)]: the attribute, or [undefined] when it is not set. *)
Definition user_get (user : User) (name : string) : jsval :=
  default JUndefined (user !! name).

(** The value stored under a template's [callback] property: an ordinary
    value, or a function from the user passed by [_sendMail] ([None] when
    that argument is [undefined]) to the value it returns.  Only callbacks
    that return are represented; one that throws makes [_sendMail] throw
    at that point, before anything is read or sent. *)
Inductive cbval : Type :=
  | CbVal (v : jsval)
  | CbFun (f : option User -> jsval).

Definition cb_truthy (c : cbval) : bool :=
  match c with
  | CbVal v => truthy v
  | CbFun _ => true
  end.

Definition cb_typeof (c : cbval) : string :=
  match c with
  | CbVal v => typeof v
  | CbFun _ => "function"
  end.

(** A template object of [options.templates]; a property that is not set
    reads as [undefined]. *)
Record Template : Type := mkTemplate {
  tpl_subject : jsval;
  tpl_pathPlainText : jsval;
  tpl_pathHtml : jsval;
  tpl_htmlInliner : jsval;
  tpl_callback : cbval;
  tpl_configurationSetName : jsval
}.

(** The argument of the constructor.  [opt_templates = None] is the
    property left undefined. *)
Record Options : Type := mkOptions {
  opt_accessKeyId : jsval;
  opt_secretAccessKey : jsval;
  opt_region : jsval;
  opt_fromAddress : jsval;
  opt_templates : option (gmap string Template)
}.

(** [new AmazonSES(accessKeyId, secretAccessKey, region)]: the client keeps
    the three values it was built from. *)
Record SesClient : Type := mkSesClient {
  ses_accessKeyId : jsval;
  ses_secretAccessKey : jsval;
  ses_region : jsval
}.

(** The adapter instance: [this.ses], [this.fromAddress], [this.templates]. *)
Record Adapter : Type := mkAdapter {
  this_ses : SesClient;
  this_fromAddress : jsval;
  this_templates : gmap string Template
}.

(** What can be thrown, or reject a promise: [new Error(msg)], the type
    error of a property read on [undefined], or a value raised by one of
    the capabilities. *)
Inductive exn : Type :=
  | Error (msg : string)
  | TypeError (msg : string)
  | Raised (cause : jsval).

(** ** The constructor *)

Definition default_options : Options :=
  {| opt_accessKeyId := JUndefined; opt_secretAccessKey := JUndefined;
     opt_region := JUndefined; opt_fromAddress := JUndefined;
     opt_templates := None |}.

(** [templates[key] || {}] destructured into subject, pathPlainText and
    callback. *)
Definition slot_fields (templates : gmap string Template) (key : string)
  : jsval * jsval * cbval :=
  match templates !! key with
  | Some t => (tpl_subject t, tpl_pathPlainText t, tpl_callback t)
  | None => (JUndefined, JUndefined, CbVal JUndefined)
  end.

(** The body of the [forEach] callback of the constructor for one key:
    [None] when nothing is thrown. *)
Definition check_slot (templates : gmap string Template) (key : string)
  : option exn :=
  let '(subject, pathPlainText, callback) := slot_fields templates key in
  if negb (String.eqb (typeof subject) "string")
     || negb (String.eqb (typeof pathPlainText) "string")
  then Some (Error "AmazonSESAdapter templates are not properly configured.")
  else if cb_truthy callback && negb (String.eqb (cb_typeof callback) "function")
  then Some (Error "AmazonSESAdapter template callback is not a function.")
  else None.

(** [keys.forEach(check)]: the first exception stops the iteration. *)
Fixpoint forEach (keys : list string) (check : string -> option exn)
  : option exn :=
  match keys with
  | [] => None
  | key :: rest =>
      match check key with
      | Some e => Some e
      | None => forEach rest check
      end
  end.

(** [new AmazonSESAdapter(options)]; [None] is a call without argument. *)
Definition constructor (arg : option Options) : exn + Adapter :=
  let options := default default_options arg in
  let accessKeyId := opt_accessKeyId options in
  let secretAccessKey := opt_secretAccessKey options in
  let region := opt_region options in
  let fromAddress := opt_fromAddress options in
  if negb (truthy accessKeyId) || negb (truthy secretAccessKey)
     || negb (truthy region) || negb (truthy fromAddress)
  then inl (Error "AmazonSESAdapter requires valid fromAddress, accessKeyId, secretAccessKey, region.")
  else
    let templates := default ∅ (opt_templates options) in
    match forEach ["passwordResetEmail"; "verificationEmail"]
                  (check_slot templates) with
    | Some e => inl e
    | None =>
        inr {| this_ses := mkSesClient accessKeyId secretAccessKey region;
               this_fromAddress := fromAddress;
               this_templates := templates |}
    end.

(** ** Requests, resolved messages and payloads *)

(** The [options] object of [_sendMail]; a property that is not set reads
    as [undefined] ([None] for the user and the template object). *)
Record MailOptions : Type := mkMailOptions {
  o_templateName : jsval;
  o_subject : jsval;
  o_fromAddress : jsval;
  o_recipient : jsval;
  o_variables : jsval;
  o_configurationSetName : jsval;
  o_link : jsval;
  o_appName : jsval;
  o_user : option User;
  o_templateConfig : option Template
}.

(** The local [message] object before its bodies are added. *)
Record Message : Type := mkMessage {
  msg_from : jsval;
  msg_to : jsval;
  msg_subject : jsval
}.

(** The locals of [_sendMail] that the generator closes over. *)
Record Resolved : Type := mkResolved {
  r_message : Message;
  r_templateVars : jsval;
  r_pathPlainText : jsval;
  r_pathHtml : jsval;
  r_htmlInliner : jsval;
  r_configurationSetName : jsval
}.

(** The object returned by the generator and passed to [ses.send]. *)
Record Payload : Type := mkPayload {
  p_from : jsval;
  p_to : list jsval;
  p_subject : jsval;
  p_body_text : jsval;
  p_body_html : jsval;
  p_ConfigurationSetName : jsval
}.

(** ** Capabilities and effects *)

(** The collaborators of the adapter.  [readFile] is [fs.readFile] with
    the decoded content of the file, [lodash_template src vars] compiles
    [src] with the double-brace delimiter and applies it to [vars],
    [juice] inlines the style sheets.  [ses_send] is the transport
    capability, the [send] method of the client class required from
    [../yo-amazon-ses-mailer]: it answers its callback with an error or
    with the provider's data. *)
Record World : Type := mkWorld {
  readFile : jsval -> exn + string;
  lodash_template : string -> jsval -> exn + string;
  juice : string -> exn + string;
  ses_send : SesClient -> Payload -> exn + jsval
}.

(** What a call leaves behind, in the order it happened. *)
Inductive event : Type :=
  | EvReadFile (path : jsval)
  | EvSend (client : SesClient) (payload : Payload)
  | EvConsoleError (error : exn).

(** Computations that may fail and that append to the trace. *)
Definition IO (A : Type) : Type := list event -> (exn + A) * list event.

Definition io_ret {A} (a : A) : IO A := fun tr => (inr a, tr).

Definition io_bind {A B} (m : IO A) (k : A -> IO B) : IO B :=
  fun tr =>
    match m tr with
    | (inl e, tr') => (inl e, tr')
    | (inr a, tr') => k a tr'
    end.

(** A synchronous call that may throw. *)
Definition io_lift {A} (r : exn + A) : IO A := fun tr => (r, tr).

Definition io_emit (ev : event) : IO unit := fun tr => (inr tt, (tr ++ [ev])%list).

Notation "x <~ m ;; k" := (io_bind m (fun x => k))
  (at level 100, m at next level, right associativity, only parsing).

(** [yield loadEmailTemplate(path)]: the promise around [fs.readFile]. *)
Definition loadEmailTemplate (w : World) (path : jsval) : IO string :=
  _ <~ io_emit (EvReadFile path) ;;
  io_lift (readFile w path).

(** The state of a settled promise. *)
Inductive settled : Type :=
  | Fulfilled (value : jsval)
  | Rejected (reason : exn).

(** The outcome of a call of a method that returns a promise: it throws
    before a promise exists, or it returns a promise that settles. *)
Inductive completion : Type :=
  | Throws (e : exn)
  | Returns (p : settled).

(** ** [_sendMail] *)

(** [own.name === 'Object'] for [own] the value of an own [constructor]
    property; of the values represented, only an object can have a
    [name]. *)
Definition named_Object (own : jsval) : bool :=
  match own with
  | JObj _ fields =>
      match fields !! "name" with
      | Some (JStr name) => String.eqb name "Object"
      | _ => false
      end
  | _ => false
  end.

(** [userVars && userVars.constructor && userVars.constructor.name === 'Object']:
    [userVars.constructor] is the own property of that name when there is
    one, and the inherited constructor otherwise. *)
Definition validUserVars (userVars : jsval) : bool :=
  truthy userVars &&
  match userVars with
  | JObj ctor fields =>
      match fields !! "constructor" with
      | Some own => truthy own && named_Object own
      | None =>
          match ctor with
          | Some name => String.eqb name "Object"
          | None => false
          end
      end
  | _ =>
      match constructor_name userVars with
      | Some name => String.eqb name "Object"
      | None => false
      end
  end.

(** The own properties of an object. *)
Definition own_fields (v : jsval) : gmap string jsval :=
  match v with
  | JObj _ fields => fields
  | _ => ∅
  end.

(** [callback(user)] for a callback that passed the function test and
    returns. *)
Definition cb_call (callback : cbval) (user : option User) : jsval :=
  match callback with
  | CbFun f => f user
  | CbVal _ => JUndefined
  end.

(** The local [userVars] after the callback block: [None] while it is
    still undefined, otherwise the properties of the object it holds (the
    callback's plain object, or [{}]). *)
Definition user_vars (callback : cbval) (user : option User)
  : option (gmap string jsval) :=
  if cb_truthy callback && String.eqb (cb_typeof callback) "function" then
    let userVars := cb_call callback user in
    Some (if validUserVars userVars then own_fields userVars else ∅)
  else None.

(** [Object.assign(target, source)] for a source that is undefined or an
    object: the source's properties win. *)
Definition object_assign (target : gmap string jsval)
    (source : option (gmap string jsval)) : gmap string jsval :=
  match source with
  | Some fields => fields ∪ target
  | None => target
  end.

(** The object literal [{link, appName, username, email}] of the purpose
    branch. *)
Definition base_vars (link appName : jsval) (user : User)
  : gmap string jsval :=
  <["link" := link]> (<["appName" := appName]>
  (<["username" := user_get user "username"]>
  (<["email" := or (user_get user "email") (user_get user "username")]> ∅))).

(** The names that every plain object inherits from [Object.prototype]. *)
Definition Object_prototype_names : list string :=
  ["constructor"; "__defineGetter__"; "__defineSetter__"; "hasOwnProperty";
   "__lookupGetter__"; "__lookupSetter__"; "isPrototypeOf";
   "propertyIsEnumerable"; "toString"; "valueOf"; "__proto__";
   "toLocaleString"].

(** What [this.templates[name]] yields for an inherited name: a function
    of [Object.prototype], or that object itself for [__proto__].  It is
    truthy, and each template property read from it is undefined. *)
Definition inherited_template : Template :=
  {| tpl_subject := JUndefined; tpl_pathPlainText := JUndefined;
     tpl_pathHtml := JUndefined; tpl_htmlInliner := JUndefined;
     tpl_callback := CbVal JUndefined;
     tpl_configurationSetName := JUndefined |}.

(** [templates[key]] for the plain object [templates]: the own property,
    otherwise the inherited one, otherwise undefined. *)
Definition templates_get (templates : gmap string Template) (key : string)
  : option Template :=
  match templates !! key with
  | Some template => Some template
  | None =>
      if existsb (String.eqb key) Object_prototype_names
      then Some inherited_template
      else None
  end.

(** The synchronous part of [_sendMail]: the [if]/[else] on
    [options.templateName] that fills the locals, or throws. *)
Definition _sendMail_prepare (this : Adapter) (options : MailOptions)
  : exn + Resolved :=
  if truthy (o_templateName options) then
    let templateName := o_templateName options in
    let subject := o_subject options in
    let fromAddress := o_fromAddress options in
    let recipient := o_recipient options in
    let variables := o_variables options in
    let configurationSetName := o_configurationSetName options in
    match templates_get (this_templates this) (to_string templateName) with
    | None =>
        inl (Error ("Could not find template with name " ++ to_string templateName))
    | Some template =>
        if negb (truthy subject) && negb (truthy (tpl_subject template)) then
          inl (Error ("Cannot send email with template " ++ to_string templateName
                      ++ " without a subject"))
        else if negb (truthy recipient) then
          inl (Error ("Cannot send email with template " ++ to_string templateName
                      ++ " without a recipient"))
        else
          inr {| r_message :=
                   {| msg_from := or fromAddress (this_fromAddress this);
                      msg_to := recipient;
                      msg_subject := or subject (tpl_subject template) |};
                 r_templateVars := variables;
                 r_pathPlainText := tpl_pathPlainText template;
                 r_pathHtml := tpl_pathHtml template;
                 r_htmlInliner := tpl_htmlInliner template;
                 r_configurationSetName := configurationSetName |}
    end
  else
    let link := o_link options in
    let appName := o_appName options in
    let user := o_user options in
    match o_templateConfig options with
    | None => inl (TypeError "Cannot read property 'callback' of undefined")
    | Some templateConfig =>
        let callback := tpl_callback templateConfig in
        let configurationSetName := tpl_configurationSetName templateConfig in
        let userVars := user_vars callback user in
        match user with
        | None => inl (TypeError "Cannot read property 'get' of undefined")
        | Some user =>
            inr {| r_message :=
                     {| msg_from := this_fromAddress this;
                        msg_to := or (user_get user "email") (user_get user "username");
                        msg_subject := tpl_subject templateConfig |};
                   r_templateVars :=
                     object (object_assign (base_vars link appName user) userVars);
                   r_pathPlainText := tpl_pathPlainText templateConfig;
                   r_pathHtml := tpl_pathHtml templateConfig;
                   r_htmlInliner := tpl_htmlInliner templateConfig;
                   r_configurationSetName := configurationSetName |}
        end
    end.

(** The generator run by [co]: load and interpolate the bodies, then
    return the payload.  Any failure rejects the promise of [co]. *)
Definition _sendMail_compose (w : World) (r : Resolved) : IO Payload :=
  let message := r_message r in
  let templateVars := r_templateVars r in
  plainTextEmail <~ loadEmailTemplate w (r_pathPlainText r) ;;
  text <~ io_lift (lodash_template w plainTextEmail templateVars) ;;
  html <~ (if truthy (r_pathHtml r) then
             htmlEmail <~ loadEmailTemplate w (r_pathHtml r) ;;
             compiledHtml <~ io_lift (lodash_template w htmlEmail templateVars) ;;
             if truthy (r_htmlInliner r) then
               inlined <~ io_lift (juice w compiledHtml) ;;
               io_ret (JStr inlined)
             else io_ret (JStr compiledHtml)
           else io_ret JUndefined) ;;
  io_ret {| p_from := msg_from message;
            p_to := [msg_to message];
            p_subject := msg_subject message;
            p_body_text := JStr text;
            p_body_html := html;
            p_ConfigurationSetName := r_configurationSetName r |}.

(** [.then(payload => ..., error => ...)]: a payload goes to [ses.send],
    whose error rejects and whose data fulfils; a rejection of the
    generator is written to the console and the handler returns nothing. *)
Definition _sendMail_then (w : World) (this : Adapter)
    (composed : (exn + Payload) * list event) : settled * list event :=
  match composed with
  | (inr payload, tr) =>
      (match ses_send w (this_ses this) payload with
       | inl error => Rejected error
       | inr data => Fulfilled data
       end,
       (tr ++ [EvSend (this_ses this) payload])%list)
  | (inl error, tr) =>
      (Fulfilled JUndefined, (tr ++ [EvConsoleError error])%list)
  end.

Definition _sendMail (w : World) (this : Adapter) (options : MailOptions)
  : completion * list event :=
  match _sendMail_prepare this options with
  | inl e => (Throws e, [])
  | inr r =>
      let '(p, tr) := _sendMail_then w this (_sendMail_compose w r []) in
      (Returns p, tr)
  end.

(** ** The public entry points *)

(** The destructured argument [{link, appName, user}]. *)
Record PurposeArgs : Type := mkPurposeArgs {
  a_link : jsval;
  a_appName : jsval;
  a_user : option User
}.

(** The destructured argument of [send]. *)
Record SendArgs : Type := mkSendArgs {
  s_templateName : jsval;
  s_subject : jsval;
  s_fromAddress : jsval;
  s_recipient : jsval;
  s_variables : jsval;
  s_configurationSetName : jsval
}.

Definition purpose_options (args : PurposeArgs)
    (templateConfig : option Template) : MailOptions :=
  {| o_templateName := JUndefined; o_subject := JUndefined;
     o_fromAddress := JUndefined; o_recipient := JUndefined;
     o_variables := JUndefined; o_configurationSetName := JUndefined;
     o_link := a_link args; o_appName := a_appName args;
     o_user := a_user args; o_templateConfig := templateConfig |}.

Definition sendPasswordResetEmail (w : World) (this : Adapter)
    (args : PurposeArgs) : completion * list event :=
  _sendMail w this
    (purpose_options args (this_templates this !! "passwordResetEmail")).

Definition sendVerificationEmail (w : World) (this : Adapter)
    (args : PurposeArgs) : completion * list event :=
  _sendMail w this
    (purpose_options args (this_templates this !! "verificationEmail")).

(** The object literal that [send] passes on; [variables] defaults to
    [{}] when it is undefined. *)
Definition send_options (args : SendArgs) : MailOptions :=
  let variables :=
    match s_variables args with
    | JUndefined => empty_object
    | v => v
    end in
  {| o_templateName := s_templateName args; o_subject := s_subject args;
     o_fromAddress := s_fromAddress args; o_recipient := s_recipient args;
     o_variables := variables;
     o_configurationSetName := s_configurationSetName args;
     o_link := JUndefined; o_appName := JUndefined;
     o_user := None; o_templateConfig := None |}.

Definition send (w : World) (this : Adapter) (args : SendArgs)
  : completion * list event :=
  _sendMail w this (send_options args).

(** ** Specification predicates *)


(** The four required configuration values are all present and non-empty. *)
Definition credentials_given (o : Options) : Prop :=
  truthy (opt_accessKeyId o) = true /\ truthy (opt_secretAccessKey o) = true /\
  truthy (opt_region o) = true /\ truthy (opt_fromAddress o) = true.

(** A built-in slot is supplied and well-formed: string subject, string
    plain-text path, and a callback that is absent or a function. *)
Definition slot_well_formed (templates : gmap string Template)
    (key : string) : Prop :=
  exists t, templates !! key = Some t /\
    typeof (tpl_subject t) = "string" /\
    typeof (tpl_pathPlainText t) = "string" /\
    (cb_truthy (tpl_callback t) = false \/ cb_typeof (tpl_callback t) = "function").

(** A template load of the generator fails with [cause]: the plain-text
    load, or the HTML load that follows a successful plain-text body. *)
Definition load_fails (w : World) (r : Resolved) (cause : exn) : Prop :=
  readFile w (r_pathPlainText r) = inl cause \/
  (exists content text,
     readFile w (r_pathPlainText r) = inr content /\
     lodash_template w content (r_templateVars r) = inr text /\
     truthy (r_pathHtml r) = true /\
     readFile w (r_pathHtml r) = inl cause).

(** No payload reached the transport in this trace. *)
Definition never_sent (tr : list event) : Prop :=
  forall client payload, ~ In (EvSend client payload) tr.

(** ** Sample configurations *)

Module Sample.

Definition resetTemplate : Template :=
  {| tpl_subject := JStr "Reset"; tpl_pathPlainText := JStr "reset.txt";
     tpl_pathHtml := JUndefined; tpl_htmlInliner := JUndefined;
     tpl_callback := CbVal JUndefined;
     tpl_configurationSetName := JUndefined |}.

Definition verifyTemplate : Template :=
  {| tpl_subject := JStr "Verify"; tpl_pathPlainText := JStr "verify.txt";
     tpl_pathHtml := JStr "verify.html"; tpl_htmlInliner := JBool true;
     tpl_callback := CbFun (fun _ => JStr "not a mapping");
     tpl_configurationSetName := JUndefined |}.

(** A named template without a default subject. *)
Definition welcomeTemplate : Template :=
  {| tpl_subject := JUndefined; tpl_pathPlainText := JStr "welcome.txt";
     tpl_pathHtml := JUndefined; tpl_htmlInliner := JUndefined;
     tpl_callback := CbVal JUndefined;
     tpl_configurationSetName := JUndefined |}.

Definition templates : gmap string Template :=
  <["passwordResetEmail" := resetTemplate]>
  (<["verificationEmail" := verifyTemplate]>
  (<["welcome" := welcomeTemplate]> ∅)).

Definition options : Options :=
  {| opt_accessKeyId := JStr "AKIA"; opt_secretAccessKey := JStr "secret";
     opt_region := JStr "eu-west-1"; opt_fromAddress := JStr "noreply@x.org";
     opt_templates := Some templates |}.

(** Credentials only: no [templates] property. *)
Definition bareOptions : Options :=
  {| opt_accessKeyId := JStr "AKIA"; opt_secretAccessKey := JStr "secret";
     opt_region := JStr "eu-west-1"; opt_fromAddress := JStr "noreply@x.org";
     opt_templates := None |}.

(** An empty region. *)
Definition noRegionOptions : Options :=
  {| opt_accessKeyId := JStr "AKIA"; opt_secretAccessKey := JStr "secret";
     opt_region := JStr ""; opt_fromAddress := JStr "noreply@x.org";
     opt_templates := Some templates |}.

Definition adapter : Adapter :=
  {| this_ses := mkSesClient (JStr "AKIA") (JStr "secret") (JStr "eu-west-1");
     this_fromAddress := JStr "noreply@x.org";
     this_templates := templates |}.

(** Three files exist; the engine returns its source unchanged; the
    transport accepts every payload. *)
Definition world : World :=
  {| readFile := fun path =>
       match path with
       | JStr "reset.txt" => inr "Reset via {{link}}"
       | JStr "verify.txt" => inr "Verify via {{link}}"
       | JStr "welcome.txt" => inr "Welcome"
       | _ => inl (Raised (JStr "ENOENT"))
       end;
     lodash_template := fun src _ => inr src;
     juice := fun html => inr html;
     ses_send := fun _ _ => inr (JStr "MessageId") |}.

(** The same world without any file. *)
Definition emptyDisk : World :=
  {| readFile := fun _ => inl (Raised (JStr "ENOENT"));
     lodash_template := lodash_template world;
     juice := juice world;
     ses_send := ses_send world |}.

(** A purpose template whose callback derives variables from the user. *)
Definition tierTemplate : Template :=
  {| tpl_subject := JStr "Tier"; tpl_pathPlainText := JStr "tier.txt";
     tpl_pathHtml := JUndefined; tpl_htmlInliner := JUndefined;
     tpl_callback := CbFun (fun _ =>
       object (<["tier" := JStr "gold"]> (<["link" := JStr "http://x/vip"]> ∅)));
     tpl_configurationSetName := JStr "tiers" |}.

Definition ann : User :=
  <["email" := JStr "a@b.com"]> (<["username" := JStr "ann"]> ∅).

(** A user with neither an email nor a username attribute. *)
Definition nobody : User := ∅.

Definition resetArgs (user : User) : PurposeArgs :=
  {| a_link := JStr "http://x/reset"; a_appName := JStr "App";
     a_user := Some user |}.

Definition sendArgs (templateName subject recipient : jsval) : SendArgs :=
  {| s_templateName := templateName; s_subject := subject;
     s_fromAddress := JUndefined; s_recipient := recipient;
     s_variables := JUndefined; s_configurationSetName := JUndefined |}.

End Sample.

(** ** Further specification predicates *)

(** The file reads of a generator that runs to its end: the plain-text
    template, then the HTML template when a path is configured. *)
Definition template_reads (r : Resolved) : list event :=
  EvReadFile (r_pathPlainText r) ::
  (if truthy (r_pathHtml r) then [EvReadFile (r_pathHtml r)] else []).

(** [html] is the HTML body that the capabilities of [w] yield for [r]:
    undefined without an HTML path, the interpolated HTML template with
    one, passed through [juice] when inlining is requested. *)
Definition html_body (w : World) (r : Resolved) (html : jsval) : Prop :=
  (truthy (r_pathHtml r) = false /\ html = JUndefined) \/
  (truthy (r_pathHtml r) = true /\
   exists src compiled,
     readFile w (r_pathHtml r) = inr src /\
     lodash_template w src (r_templateVars r) = inr compiled /\
     ((truthy (r_htmlInliner r) = false /\ html = JStr compiled) \/
      (truthy (r_htmlInliner r) = true /\
       exists inlined, juice w compiled = inr inlined /\ html = JStr inlined))).

(** A step of the generator other than a file read fails with [cause]:
    the interpolation of the text, the interpolation of the HTML, or the
    inlining.  [reads] are the file reads made until then. *)
Definition render_fails (w : World) (r : Resolved) (cause : exn)
    (reads : list event) : Prop :=
  exists content,
    readFile w (r_pathPlainText r) = inr content /\
    ((lodash_template w content (r_templateVars r) = inl cause /\
      reads = [EvReadFile (r_pathPlainText r)]) \/
     (exists text src,
        lodash_template w content (r_templateVars r) = inr text /\
        truthy (r_pathHtml r) = true /\
        readFile w (r_pathHtml r) = inr src /\
        reads = [EvReadFile (r_pathPlainText r); EvReadFile (r_pathHtml r)] /\
        (lodash_template w src (r_templateVars r) = inl cause \/
         exists compiled,
           lodash_template w src (r_templateVars r) = inr compiled /\
           truthy (r_htmlInliner r) = true /\
           juice w compiled = inl cause))).

(** The event that ends a call which returned a promise. *)
Definition final_event (ev : event) : Prop :=
  match ev with
  | EvReadFile _ => False
  | EvSend _ _ | EvConsoleError _ => True
  end.

(** Nothing was written to the error console in this trace. *)
Definition never_logged (tr : list event) : Prop :=
  forall error, ~ In (EvConsoleError error) tr.

(** The exceptions of the named branch of [_sendMail]. *)
Definition validation_error (options : MailOptions) (e : exn) : Prop :=
  e = Error ("Could not find template with name "
             ++ to_string (o_templateName options)) \/
  e = Error ("Cannot send email with template "
             ++ to_string (o_templateName options) ++ " without a subject") \/
  e = Error ("Cannot send email with template "
             ++ to_string (o_templateName options) ++ " without a recipient").

(** [options] with one more entry in its [templates] object. *)
Definition with_template (o : Options) (key : string) (t : Template)
  : Options :=
  {| opt_accessKeyId := opt_accessKeyId o;
     opt_secretAccessKey := opt_secretAccessKey o;
     opt_region := opt_region o;
     opt_fromAddress := opt_fromAddress o;
     opt_templates := Some (<[key := t]> (default ∅ (opt_templates o))) |}.

(** ** The ES source of the adapter

    The second class of the file is the source written against the SESV2
    client of [aws-sdk]: the same validation and resolution, a payload in
    the shape of [sendEmail], and no configuration-set name. *)

Module ES.

(** [new Credentials({accessKeyId, secretAccessKey})] *)
Record Credentials : Type := mkCredentials {
  cred_accessKeyId : jsval;
  cred_secretAccessKey : jsval
}.

(** [new SESV2({credentials, region})] *)
Record SESV2 : Type := mkSESV2 {
  v2_credentials : Credentials;
  v2_region : jsval
}.

Record Adapter : Type := mkAdapter {
  this_ses : SESV2;
  this_fromAddress : jsval;
  this_templates : gmap string Template
}.

Definition constructor (arg : option Options) : exn + Adapter :=
  let options := default default_options arg in
  let accessKeyId := opt_accessKeyId options in
  let secretAccessKey := opt_secretAccessKey options in
  let region := opt_region options in
  let fromAddress := opt_fromAddress options in
  if negb (truthy accessKeyId) || negb (truthy secretAccessKey)
     || negb (truthy region) || negb (truthy fromAddress)
  then inl (Error "AmazonSESAdapter requires valid fromAddress, accessKeyId, secretAccessKey, region.")
  else
    let templates := default ∅ (opt_templates options) in
    match forEach ["passwordResetEmail"; "verificationEmail"]
                  (check_slot templates) with
    | Some e => inl e
    | None =>
        inr {| this_ses :=
                 mkSESV2 (mkCredentials accessKeyId secretAccessKey) region;
               this_fromAddress := fromAddress;
               this_templates := templates |}
    end.

(** The locals of [_sendMail] that the generator closes over. *)
Record Resolved : Type := mkResolved {
  r_message : Message;
  r_templateVars : jsval;
  r_pathPlainText : jsval;
  r_pathHtml : jsval;
  r_htmlInliner : jsval
}.

(** The nested object literal returned by the generator. *)
Record DataOf : Type := mkData { Data : jsval }.
Record BodyOf : Type := mkBody { Html : DataOf; Text : DataOf }.
Record SimpleOf : Type := mkSimple { Body : BodyOf; Subject : DataOf }.
Record ContentOf : Type := mkContent { Simple : SimpleOf }.
Record DestinationOf : Type := mkDestination { ToAddresses : list jsval }.
Record Payload : Type := mkPayload {
  Content : ContentOf;
  Destination : DestinationOf;
  FromEmailAddress : jsval
}.

(** The collaborators; [ses_sendEmail] is the [sendEmail] method of the
    SESV2 client. *)
Record World : Type := mkWorld {
  readFile : jsval -> exn + string;
  lodash_template : string -> jsval -> exn + string;
  juice : string -> exn + string;
  ses_sendEmail : SESV2 -> Payload -> exn + jsval
}.

Inductive event : Type :=
  | EvReadFile (path : jsval)
  | EvSendEmail (client : SESV2) (payload : Payload)
  | EvConsoleError (error : exn).

Definition IO (A : Type) : Type := list event -> (exn + A) * list event.

Definition io_ret {A} (a : A) : IO A := fun tr => (inr a, tr).

Definition io_bind {A B} (m : IO A) (k : A -> IO B) : IO B :=
  fun tr =>
    match m tr with
    | (inl e, tr') => (inl e, tr')
    | (inr a, tr') => k a tr'
    end.

Definition io_lift {A} (r : exn + A) : IO A := fun tr => (r, tr).

Definition io_emit (ev : event) : IO unit := fun tr => (inr tt, (tr ++ [ev])%list).

Notation "x <~~ m ;; k" := (io_bind m (fun x => k))
  (at level 100, m at next level, right associativity, only parsing).

Definition loadEmailTemplate (w : World) (path : jsval) : IO string :=
  _ <~~ io_emit (EvReadFile path) ;;
  io_lift (readFile w path).

(** The synchronous part of [_sendMail]. *)
Definition _sendMail_prepare (this : Adapter) (options : MailOptions)
  : exn + Resolved :=
  if truthy (o_templateName options) then
    let templateName := o_templateName options in
    let subject := o_subject options in
    let fromAddress := o_fromAddress options in
    let recipient := o_recipient options in
    let variables := o_variables options in
    match templates_get (this_templates this) (to_string templateName) with
    | None =>
        inl (Error ("Could not find template with name " ++ to_string templateName))
    | Some template =>
        if negb (truthy subject) && negb (truthy (tpl_subject template)) then
          inl (Error ("Cannot send email with template " ++ to_string templateName
                      ++ " without a subject"))
        else if negb (truthy recipient) then
          inl (Error ("Cannot send email with template " ++ to_string templateName
                      ++ " without a recipient"))
        else
          inr {| r_message :=
                   {| msg_from := or fromAddress (this_fromAddress this);
                      msg_to := recipient;
                      msg_subject := or subject (tpl_subject template) |};
                 r_templateVars := variables;
                 r_pathPlainText := tpl_pathPlainText template;
                 r_pathHtml := tpl_pathHtml template;
                 r_htmlInliner := tpl_htmlInliner template |}
    end
  else
    let link := o_link options in
    let appName := o_appName options in
    let user := o_user options in
    match o_templateConfig options with
    | None => inl (TypeError "Cannot read property 'callback' of undefined")
    | Some templateConfig =>
        let callback := tpl_callback templateConfig in
        let userVars := user_vars callback user in
        match user with
        | None => inl (TypeError "Cannot read property 'get' of undefined")
        | Some user =>
            inr {| r_message :=
                     {| msg_from := this_fromAddress this;
                        msg_to := or (user_get user "email") (user_get user "username");
                        msg_subject := tpl_subject templateConfig |};
                   r_templateVars :=
                     object (object_assign (base_vars link appName user) userVars);
                   r_pathPlainText := tpl_pathPlainText templateConfig;
                   r_pathHtml := tpl_pathHtml templateConfig;
                   r_htmlInliner := tpl_htmlInliner templateConfig |}
        end
    end.

(** The generator run by [co]. *)
Definition _sendMail_compose (w : World) (r : Resolved) : IO Payload :=
  let message := r_message r in
  let templateVars := r_templateVars r in
  plainTextEmail <~~ loadEmailTemplate w (r_pathPlainText r) ;;
  text <~~ io_lift (lodash_template w plainTextEmail templateVars) ;;
  html <~~ (if truthy (r_pathHtml r) then
              htmlEmail <~~ loadEmailTemplate w (r_pathHtml r) ;;
              compiledHtml <~~ io_lift (lodash_template w htmlEmail templateVars) ;;
              if truthy (r_htmlInliner r) then
                inlined <~~ io_lift (juice w compiledHtml) ;;
                io_ret (JStr inlined)
              else io_ret (JStr compiledHtml)
            else io_ret JUndefined) ;;
  io_ret {| Content :=
              {| Simple :=
                   {| Body := {| Html := {| Data := html |};
                                 Text := {| Data := JStr text |} |};
                      Subject := {| Data := msg_subject message |} |} |};
            Destination := {| ToAddresses := [msg_to message] |};
            FromEmailAddress := msg_from message |}.

(** [.then(payload => ..., error => ...)] around [ses.sendEmail]. *)
Definition _sendMail_then (w : World) (this : Adapter)
    (composed : (exn + Payload) * list event) : settled * list event :=
  match composed with
  | (inr payload, tr) =>
      (match ses_sendEmail w (this_ses this) payload with
       | inl error => Rejected error
       | inr data => Fulfilled data
       end,
       (tr ++ [EvSendEmail (this_ses this) payload])%list)
  | (inl error, tr) =>
      (Fulfilled JUndefined, (tr ++ [EvConsoleError error])%list)
  end.

Definition _sendMail (w : World) (this : Adapter) (options : MailOptions)
  : completion * list event :=
  match _sendMail_prepare this options with
  | inl e => (Throws e, [])
  | inr r =>
      let '(p, tr) := _sendMail_then w this (_sendMail_compose w r []) in
      (Returns p, tr)
  end.

Definition sendPasswordResetEmail (w : World) (this : Adapter)
    (args : PurposeArgs) : completion * list event :=
  _sendMail w this
    (purpose_options args (this_templates this !! "passwordResetEmail")).

Definition sendVerificationEmail (w : World) (this : Adapter)
    (args : PurposeArgs) : completion * list event :=
  _sendMail w this
    (purpose_options args (this_templates this !! "verificationEmail")).

(** The object literal that [send] passes on: it has no
    [configurationSetName] property. *)
Definition send_options (args : SendArgs) : MailOptions :=
  let variables :=
    match s_variables args with
    | JUndefined => empty_object
    | v => v
    end in
  {| o_templateName := s_templateName args; o_subject := s_subject args;
     o_fromAddress := s_fromAddress args; o_recipient := s_recipient args;
     o_variables := variables;
     o_configurationSetName := JUndefined;
     o_link := JUndefined; o_appName := JUndefined;
     o_user := None; o_templateConfig := None |}.

Definition send (w : World) (this : Adapter) (args : SendArgs)
  : completion * list event :=
  _sendMail w this (send_options args).

End ES.

(** ** Relating the two classes *)

(** The SESV2 client built from the values the older client was built
    from. *)
Definition client_of (c : SesClient) : ES.SESV2 :=
  ES.mkSESV2 (ES.mkCredentials (ses_accessKeyId c) (ses_secretAccessKey c))
             (ses_region c).

Definition adapter_of (this : Adapter) : ES.Adapter :=
  {| ES.this_ses := client_of (this_ses this);
     ES.this_fromAddress := this_fromAddress this;
     ES.this_templates := this_templates this |}.

(** The payload of the compiled class in the shape of [sendEmail]; the
    configuration-set name has no place in it. *)
Definition reshape (p : Payload) : ES.Payload :=
  {| ES.Content :=
       {| ES.Simple :=
            {| ES.Body := {| ES.Html := {| ES.Data := p_body_html p |};
                             ES.Text := {| ES.Data := p_body_text p |} |};
               ES.Subject := {| ES.Data := p_subject p |} |} |};
     ES.Destination := {| ES.ToAddresses := p_to p |};
     ES.FromEmailAddress := p_from p |}.

Definition forget (r : Resolved) : ES.Resolved :=
  {| ES.r_message := r_message r;
     ES.r_templateVars := r_templateVars r;
     ES.r_pathPlainText := r_pathPlainText r;
     ES.r_pathHtml := r_pathHtml r;
     ES.r_htmlInliner := r_htmlInliner r |}.

Definition event_of (ev : event) : ES.event :=
  match ev with
  | EvReadFile path => ES.EvReadFile path
  | EvSend client payload => ES.EvSendEmail (client_of client) (reshape payload)
  | EvConsoleError error => ES.EvConsoleError error
  end.

(** The world of the compiled class that sits on an SESV2 world: its
    transport reshapes the payload and calls [sendEmail]. *)
Definition world_under (w : ES.World) : World :=
  {| readFile := ES.readFile w;
     lodash_template := ES.lodash_template w;
     juice := ES.juice w;
     ses_send := fun client payload =>
       ES.ses_sendEmail w (client_of client) (reshape payload) |}.

(** ** Further sample configurations *)

Module Cases.

(** The HTML file of the verification template exists, and inlining
    leaves a visible mark. *)
Definition htmlWorld : World :=
  {| readFile := fun path =>
       match path with
       | JStr "verify.html" => inr "<p>{{link}}</p>"
       | _ => readFile Sample.world path
       end;
     lodash_template := lodash_template Sample.world;
     juice := fun html => inr ("<!--inlined-->" ++ html);
     ses_send := ses_send Sample.world |}.

(** The engine rejects every template. *)
Definition brokenEngine : World :=
  {| readFile := readFile Sample.world;
     lodash_template := fun _ _ => inl (Raised (JStr "ReferenceError"));
     juice := juice Sample.world;
     ses_send := ses_send Sample.world |}.

(** The transport refuses every payload. *)
Definition throttled : World :=
  {| readFile := readFile Sample.world;
     lodash_template := lodash_template Sample.world;
     juice := juice Sample.world;
     ses_send := fun _ _ => inl (Raised (JStr "Throttling")) |}.

(** An SESV2 world over the sample files. *)
Definition v2World : ES.World :=
  {| ES.readFile := readFile Sample.world;
     ES.lodash_template := lodash_template Sample.world;
     ES.juice := juice Sample.world;
     ES.ses_sendEmail := fun _ _ => inr (JStr "MessageId") |}.

(** A built-in slot whose callback is a number. *)
Definition badCallbackTemplate : Template :=
  {| tpl_subject := JStr "Reset"; tpl_pathPlainText := JStr "reset.txt";
     tpl_pathHtml := JUndefined; tpl_htmlInliner := JUndefined;
     tpl_callback := CbVal (JNum 1);
     tpl_configurationSetName := JUndefined |}.

Definition badCallbackOptions : Options :=
  with_template Sample.options "passwordResetEmail" badCallbackTemplate.

(** A named template that the constructor would not accept as a built-in
    slot: no subject, no plain-text path. *)
Definition emptyTemplate : Template :=
  {| tpl_subject := JUndefined; tpl_pathPlainText := JUndefined;
     tpl_pathHtml := JUndefined; tpl_htmlInliner := JUndefined;
     tpl_callback := CbVal JUndefined;
     tpl_configurationSetName := JUndefined |}.

(** A purpose template whose callback returns a mapping with a variable
    named [constructor]. *)
Definition shadowTemplate : Template :=
  {| tpl_subject := JStr "Tier"; tpl_pathPlainText := JStr "tier.txt";
     tpl_pathHtml := JUndefined; tpl_htmlInliner := JUndefined;
     tpl_callback := CbFun (fun _ =>
       object (<["constructor" := JStr "x"]> (<["tier" := JStr "gold"]> ∅)));
     tpl_configurationSetName := JUndefined |}.

(** A user whose email attribute is the empty string. *)
Definition bob : User :=
  <["email" := JStr ""]> (<["username" := JStr "bob"]> ∅).

Definition welcomeArgs : SendArgs :=
  {| s_templateName := JStr "welcome"; s_subject := JStr "Hello";
     s_fromAddress := JStr "team@x.org"; s_recipient := JStr "a@b.com";
     s_variables := JNull; s_configurationSetName := JStr "news" |}.

End Cases.

(** ** Properties of the constructor *)

Section Constructor.

Local Ltac string_cases :=
  repeat match goal with
  | |- context [String.eqb ?a ?b] => destruct (String.eqb_spec a b)
  end.

Lemma check_slot_None (templates : gmap string Template) (key : string) :
  check_slot templates key = None <-> slot_well_formed templates key.
Proof.
  unfold check_slot, slot_fields, slot_well_formed.
  destruct (templates !! key) as [t|] eqn:Hkey; simpl.
  - destruct (tpl_callback t) as [v|f] eqn:Hcb; simpl;
      string_cases; simpl; try destruct (truthy v) eqn:Hv; simpl;
      split; try discriminate; try (intros _; exists t; rewrite Hcb; simpl; tauto);
      intros (t' & Ht' & Hs & Hp & Hc); injection Ht' as <-;
      rewrite Hcb in Hc; simpl in Hc; try congruence;
      destruct Hc; congruence.
  - split; [discriminate|]. intros (t & Ht & _). discriminate.
Qed.

Lemma check_slot_Some (templates : gmap string Template) (key : string) e :
  check_slot templates key = Some e ->
  e = Error "AmazonSESAdapter templates are not properly configured." \/
  e = Error "AmazonSESAdapter template callback is not a function.".
Proof.
  unfold check_slot. destruct (slot_fields templates key) as [[s p] c].
  repeat case_match; intros [= <-]; auto.
Qed.

Lemma check_slot_absent (templates : gmap string Template) (key : string) :
  templates !! key = None ->
  check_slot templates key =
    Some (Error "AmazonSESAdapter templates are not properly configured.").
Proof. unfold check_slot, slot_fields. intros ->. reflexivity. Qed.

Lemma constructor_with_credentials (o : Options) :
  credentials_given o ->
  constructor (Some o) =
    match forEach ["passwordResetEmail"; "verificationEmail"]
                  (check_slot (default ∅ (opt_templates o))) with
    | Some e => inl e
    | None =>
        inr {| this_ses := mkSesClient (opt_accessKeyId o)
                             (opt_secretAccessKey o) (opt_region o);
               this_fromAddress := opt_fromAddress o;
               this_templates := default ∅ (opt_templates o) |}
    end.
Proof.
  intros (Ha & Hs & Hr & Hf). unfold constructor. simpl.
  rewrite Ha, Hs, Hr, Hf. reflexivity.
Qed.

(** C9: a configuration in which the access key, the secret key, the
    region or the sender address is missing or empty makes the constructor
    throw its configuration error; no adapter is produced. *)
Theorem constructor_requires_credentials (arg : option Options) :
  truthy (opt_accessKeyId (default default_options arg)) = false \/
  truthy (opt_secretAccessKey (default default_options arg)) = false \/
  truthy (opt_region (default default_options arg)) = false \/
  truthy (opt_fromAddress (default default_options arg)) = false ->
  constructor arg =
    inl (Error "AmazonSESAdapter requires valid fromAddress, accessKeyId, secretAccessKey, region.").
Proof.
  intros H. unfold constructor.
  destruct H as [H|[H|[H|H]]]; rewrite H; simpl;
    rewrite ?orb_true_r; reflexivity.
Qed.

Lemma constructor_requires_credentials_witness :
  constructor (Some Sample.noRegionOptions) =
    inl (Error "AmazonSESAdapter requires valid fromAddress, accessKeyId, secretAccessKey, region.").
Proof.
  apply (constructor_requires_credentials (Some Sample.noRegionOptions)).
  right; right; left. reflexivity.
Defined.

(** C2, as the code has it: with the four required values given, the
    constructor succeeds exactly when both built-in slots are supplied and
    well-formed, and then keeps the sender and the templates; every other
    configuration, an absent slot included, makes it throw one of the two
    template configuration errors. *)
Theorem constructor_needs_both_slots (o : Options) :
  credentials_given o ->
  (slot_well_formed (default ∅ (opt_templates o)) "passwordResetEmail" /\
   slot_well_formed (default ∅ (opt_templates o)) "verificationEmail" <->
   constructor (Some o) =
     inr {| this_ses := mkSesClient (opt_accessKeyId o)
                          (opt_secretAccessKey o) (opt_region o);
            this_fromAddress := opt_fromAddress o;
            this_templates := default ∅ (opt_templates o) |}) /\
  (forall e, constructor (Some o) = inl e ->
     e = Error "AmazonSESAdapter templates are not properly configured." \/
     e = Error "AmazonSESAdapter template callback is not a function.") /\
  (forall key, In key ["passwordResetEmail"; "verificationEmail"] ->
     default ∅ (opt_templates o) !! key = None ->
     exists e, constructor (Some o) = inl e).
Proof.
  intros Hc. rewrite (constructor_with_credentials o Hc).
  set (ts := default ∅ (opt_templates o)). simpl forEach.
  destruct (check_slot ts "passwordResetEmail") as [e1|] eqn:H1;
    [|destruct (check_slot ts "verificationEmail") as [e2|] eqn:H2].
  - split; [split|split].
    + intros [Hp _]. apply check_slot_None in Hp. congruence.
    + discriminate.
    + intros e [= <-]. eapply check_slot_Some; eauto.
    + eauto.
  - split; [split|split].
    + intros [_ Hv]. apply check_slot_None in Hv. congruence.
    + discriminate.
    + intros e [= <-]. eapply check_slot_Some; eauto.
    + eauto.
  - split; [split|split].
    + reflexivity.
    + intros _. split; apply check_slot_None; assumption.
    + discriminate.
    + intros key [<-|[<-|[]]] Habs; apply check_slot_absent in Habs; congruence.
Qed.

Lemma constructor_needs_both_slots_witness :
  exists adapter, constructor (Some Sample.options) = inr adapter.
Proof.
  eexists.
  apply (proj1 (constructor_needs_both_slots Sample.options
                  (conj eq_refl (conj eq_refl (conj eq_refl eq_refl))))).
  split; [exists Sample.resetTemplate | exists Sample.verifyTemplate];
    (split; [reflexivity|]); simpl; auto.
Defined.

(** C2, as stated, fails: the four required values are given and no
    built-in slot is supplied, yet the constructor throws. *)
Lemma constructor_absent_slots_counterexample :
  credentials_given Sample.bareOptions /\
  opt_templates Sample.bareOptions = None /\
  constructor (Some Sample.bareOptions) =
    inl (Error "AmazonSESAdapter templates are not properly configured.") /\
  ~ (exists adapter, constructor (Some Sample.bareOptions) = inr adapter).
Proof.
  repeat split.
  intros [a Ha]. discriminate Ha.
Qed.

End Constructor.

(** ** Properties of the named path *)

Section Named.

Context (w : World) (this : Adapter).

(** An own property is found first. *)
Lemma templates_get_own (templates : gmap string Template) (key : string)
    (template : Template) :
  templates !! key = Some template ->
  templates_get templates key = Some template.
Proof. intros H. unfold templates_get. rewrite H. reflexivity. Qed.

(** A name that is neither an own property nor inherited is not found. *)
Lemma templates_get_unknown (templates : gmap string Template) (key : string) :
  templates !! key = None ->
  ~ In key Object_prototype_names ->
  templates_get templates key = None.
Proof.
  intros H Hnot. unfold templates_get. rewrite H.
  destruct (existsb (String.eqb key) Object_prototype_names) eqn:He;
    [|reflexivity].
  apply existsb_exists in He. destruct He as (name & Hin & Heq).
  apply String.eqb_eq in Heq. subst name. contradiction.
Qed.

(** A name that is not an own property but is inherited is found. *)
Lemma templates_get_inherited (templates : gmap string Template) (key : string) :
  templates !! key = None ->
  In key Object_prototype_names ->
  templates_get templates key = Some inherited_template.
Proof.
  intros H Hin. unfold templates_get. rewrite H.
  replace (existsb (String.eqb key) Object_prototype_names) with true;
    [reflexivity|].
  symmetry. apply existsb_exists. exists key. split; [exact Hin|].
  apply String.eqb_refl.
Qed.

(** The named branch once the template is found. *)
Lemma prepare_named (options : MailOptions) (template : Template) :
  truthy (o_templateName options) = true ->
  this_templates this !! to_string (o_templateName options) = Some template ->
  _sendMail_prepare this options =
    if negb (truthy (o_subject options)) && negb (truthy (tpl_subject template))
    then inl (Error ("Cannot send email with template "
                     ++ to_string (o_templateName options) ++ " without a subject"))
    else if negb (truthy (o_recipient options))
    then inl (Error ("Cannot send email with template "
                     ++ to_string (o_templateName options) ++ " without a recipient"))
    else inr {| r_message :=
                  {| msg_from := or (o_fromAddress options) (this_fromAddress this);
                     msg_to := o_recipient options;
                     msg_subject := or (o_subject options) (tpl_subject template) |};
                r_templateVars := o_variables options;
                r_pathPlainText := tpl_pathPlainText template;
                r_pathHtml := tpl_pathHtml template;
                r_htmlInliner := tpl_htmlInliner template;
                r_configurationSetName := o_configurationSetName options |}.
Proof.
  intros Hn Ht. unfold _sendMail_prepare.
  rewrite Hn, (templates_get_own _ _ _ Ht). reflexivity.
Qed.

(** A call that throws during preparation leaves no trace. *)
Lemma sendMail_throws (options : MailOptions) (e : exn) :
  _sendMail_prepare this options = inl e ->
  _sendMail w this options = (Throws e, []).
Proof. intros H. unfold _sendMail. rewrite H. reflexivity. Qed.

(** C4: for a named request (a truthy template name) whose template is
    registered, the call throws the missing-subject error when neither the
    call nor the template gives a subject; whenever a message is resolved,
    its subject is the call-site subject if supplied and the template's
    subject otherwise, and its sender is the per-call address if supplied
    and the adapter's address otherwise; and a message is resolved as soon
    as a subject and a recipient are available. *)
Theorem named_subject_and_sender (args : SendArgs) (template : Template) :
  truthy (s_templateName args) = true ->
  this_templates this !! to_string (s_templateName args) = Some template ->
  (truthy (s_subject args) = false -> truthy (tpl_subject template) = false ->
     send w this args =
       (Throws (Error ("Cannot send email with template "
                       ++ to_string (s_templateName args) ++ " without a subject")),
        [])) /\
  (forall r, _sendMail_prepare this (send_options args) = inr r ->
     msg_subject (r_message r) =
       (if truthy (s_subject args) then s_subject args else tpl_subject template) /\
     msg_from (r_message r) =
       (if truthy (s_fromAddress args) then s_fromAddress args
        else this_fromAddress this)) /\
  (truthy (s_subject args) = true \/ truthy (tpl_subject template) = true ->
   truthy (s_recipient args) = true ->
   exists r, _sendMail_prepare this (send_options args) = inr r).
Proof.
  intros Hn Ht.
  pose proof (prepare_named (send_options args) template Hn Ht) as Hp.
  simpl in Hp. split; [|split].
  - intros Hs Hts. apply sendMail_throws. rewrite Hp, Hs, Hts. reflexivity.
  - intros r. rewrite Hp.
    destruct (truthy (s_subject args)) eqn:Hs;
      destruct (truthy (tpl_subject template)) eqn:Hts;
      destruct (truthy (s_recipient args)) eqn:Hr; simpl; try discriminate;
      intros [= <-]; simpl; unfold or; rewrite ?Hs; split; reflexivity.
  - intros Hsub Hr. rewrite Hp, Hr.
    destruct Hsub as [-> | ->]; simpl; rewrite ?andb_false_r; eauto.
Qed.

(** X22: a named request whose template name is neither a key of the
    adapter's templates nor one of the names inherited from
    [Object.prototype] throws the unknown-template error, and nothing has
    happened by then: no template was loaded.  (A named request is one
    with a truthy template name, the test by which [_sendMail] recognises
    it.) *)
Theorem send_unknown_template (args : SendArgs) :
  truthy (s_templateName args) = true ->
  this_templates this !! to_string (s_templateName args) = None ->
  ~ In (to_string (s_templateName args)) Object_prototype_names ->
  send w this args =
    (Throws (Error ("Could not find template with name "
                    ++ to_string (s_templateName args))), []) /\
  (forall path, ~ In (EvReadFile path) (snd (send w this args))).
Proof.
  intros Hn Ht Hnot.
  assert (send w this args =
    (Throws (Error ("Could not find template with name "
                    ++ to_string (s_templateName args))), [])) as ->.
  { apply sendMail_throws. unfold _sendMail_prepare. simpl.
    rewrite Hn, (templates_get_unknown _ _ Ht Hnot). reflexivity. }
  split; [reflexivity|]. intros path [].
Qed.

(** C6, as the code has it: a named request with a registered template
    and no recipient throws before anything is loaded; the error is the
    missing-recipient error when a subject is available (from the call or
    from the template) and the missing-subject error otherwise, the
    subject being checked first. *)
Theorem send_without_recipient (args : SendArgs) (template : Template) :
  truthy (s_templateName args) = true ->
  this_templates this !! to_string (s_templateName args) = Some template ->
  truthy (s_recipient args) = false ->
  (exists msg, send w this args = (Throws (Error msg), [])) /\
  (truthy (s_subject args) = true \/ truthy (tpl_subject template) = true ->
   send w this args =
     (Throws (Error ("Cannot send email with template "
                     ++ to_string (s_templateName args) ++ " without a recipient")),
      [])) /\
  (truthy (s_subject args) = false -> truthy (tpl_subject template) = false ->
   send w this args =
     (Throws (Error ("Cannot send email with template "
                     ++ to_string (s_templateName args) ++ " without a subject")),
      [])).
Proof.
  intros Hn Ht Hr.
  pose proof (prepare_named (send_options args) template Hn Ht) as Hp.
  simpl in Hp. rewrite Hr in Hp. simpl in Hp.
  unfold send. split; [|split].
  - destruct (negb (truthy (s_subject args)) && negb (truthy (tpl_subject template)));
      eexists; apply sendMail_throws; exact Hp.
  - intros Hsub. apply sendMail_throws. rewrite Hp.
    destruct Hsub as [-> | ->]; simpl; rewrite ?andb_false_r; reflexivity.
  - intros Hs Hts. apply sendMail_throws. rewrite Hp, Hs, Hts. reflexivity.
Qed.

(** C10: [_sendMail] dispatches on the truthiness of the template name.
    A call of [send] with a falsy template name (undefined, the empty
    string) takes the purpose branch, where the template object is
    undefined and reading its [callback] throws a type error; none of the
    validation errors of the named branch can be the outcome. *)
Theorem send_falsy_templateName (args : SendArgs) :
  truthy (s_templateName args) = false ->
  send w this args =
    (Throws (TypeError "Cannot read property 'callback' of undefined"), []) /\
  (forall msg, fst (send w this args) <> Throws (Error msg)).
Proof.
  intros Hn.
  assert (send w this args =
    (Throws (TypeError "Cannot read property 'callback' of undefined"), [])) as ->.
  { apply sendMail_throws. unfold _sendMail_prepare. simpl.
    rewrite Hn. reflexivity. }
  split; [reflexivity|]. intros msg. discriminate.
Qed.

End Named.

Lemma named_subject_and_sender_witness :
  send Sample.world Sample.adapter
    (Sample.sendArgs (JStr "welcome") JUndefined (JStr "a@b.com")) =
  (Throws (Error "Cannot send email with template welcome without a subject"), []).
Proof.
  refine (proj1 (named_subject_and_sender Sample.world Sample.adapter
            (Sample.sendArgs (JStr "welcome") JUndefined (JStr "a@b.com"))
            Sample.welcomeTemplate _ _) _ _); reflexivity.
Defined.

Lemma send_unknown_template_witness :
  send Sample.world Sample.adapter
    (Sample.sendArgs (JStr "goodbye") (JStr "Bye") (JStr "a@b.com")) =
  (Throws (Error "Could not find template with name goodbye"), []).
Proof.
  refine (proj1 (send_unknown_template Sample.world Sample.adapter
            (Sample.sendArgs (JStr "goodbye") (JStr "Bye") (JStr "a@b.com"))
            _ _ _));
    first [reflexivity | intros H; simpl in H; intuition discriminate].
Defined.

(** C5, the code at a template name that no key of the templates matches
    but that every object inherits: the unknown-template check lets it
    pass, the load capability is invoked with an undefined path in any
    world, and the call ends like any failed load, its promise fulfilled
    with undefined. *)
Theorem send_inherited_name_is_loaded :
  this_templates Sample.adapter !! "constructor" = None /\
  (forall w : World, exists p rest,
     send w Sample.adapter
       (Sample.sendArgs (JStr "constructor") (JStr "Hi") (JStr "a@b.com")) =
     (Returns p, EvReadFile JUndefined :: rest)) /\
  send Sample.world Sample.adapter
    (Sample.sendArgs (JStr "constructor") (JStr "Hi") (JStr "a@b.com")) =
  (Returns (Fulfilled JUndefined),
   [EvReadFile JUndefined; EvConsoleError (Raised (JStr "ENOENT"))]).
Proof.
  split; [reflexivity|]. split; [|reflexivity].
  intros w. unfold send, _sendMail.
  change (_sendMail_prepare Sample.adapter
            (send_options (Sample.sendArgs (JStr "constructor") (JStr "Hi")
                             (JStr "a@b.com"))))
    with (@inr exn Resolved
            {| r_message := mkMessage (JStr "noreply@x.org") (JStr "a@b.com") (JStr "Hi");
               r_templateVars := empty_object;
               r_pathPlainText := JUndefined;
               r_pathHtml := JUndefined;
               r_htmlInliner := JUndefined;
               r_configurationSetName := JUndefined |}).
  unfold _sendMail_compose, loadEmailTemplate, io_bind, io_emit, io_lift, io_ret.
  simpl. destruct (readFile w JUndefined) as [e|content]; simpl; [eauto|].
  destruct (lodash_template w content empty_object) as [e|text]; simpl; eauto.
Qed.

Lemma send_without_recipient_witness :
  send Sample.world Sample.adapter
    (Sample.sendArgs (JStr "welcome") (JStr "Hello") JUndefined) =
  (Throws (Error "Cannot send email with template welcome without a recipient"), []).
Proof.
  refine (proj1 (proj2 (send_without_recipient Sample.world Sample.adapter
            (Sample.sendArgs (JStr "welcome") (JStr "Hello") JUndefined)
            Sample.welcomeTemplate _ _ _)) _);
    first [reflexivity | left; reflexivity].
Defined.

(** C6, as stated, fails: the template is registered and no recipient is
    supplied, yet the error is the missing-subject one. *)
Lemma send_without_recipient_counterexample :
  truthy (JStr "welcome") = true /\
  this_templates Sample.adapter !! to_string (JStr "welcome")
    = Some Sample.welcomeTemplate /\
  truthy (s_recipient (Sample.sendArgs (JStr "welcome") JUndefined JUndefined))
    = false /\
  send Sample.world Sample.adapter
    (Sample.sendArgs (JStr "welcome") JUndefined JUndefined) =
  (Throws (Error "Cannot send email with template welcome without a subject"), []) /\
  send Sample.world Sample.adapter
    (Sample.sendArgs (JStr "welcome") JUndefined JUndefined) <>
  (Throws (Error "Cannot send email with template welcome without a recipient"), []).
Proof. repeat split. discriminate. Qed.

Lemma send_falsy_templateName_witness :
  send Sample.world Sample.adapter
    (Sample.sendArgs (JStr "") (JStr "Hello") (JStr "a@b.com")) =
  (Throws (TypeError "Cannot read property 'callback' of undefined"), []).
Proof.
  refine (proj1 (send_falsy_templateName Sample.world Sample.adapter
            (Sample.sendArgs (JStr "") (JStr "Hello") (JStr "a@b.com")) _)).
  reflexivity.
Defined.

(** ** Properties of the purpose path *)

Section Purpose.

Context (this : Adapter).

(** Only an object passes the test of [validUserVars], and then its
    inherited constructor is [Object] or it has an own [constructor]. *)
Lemma validUserVars_true (v : jsval) :
  validUserVars v = true ->
  exists ctor fields,
    v = JObj ctor fields /\
    (ctor = Some "Object" \/ is_Some (fields !! "constructor")).
Proof.
  unfold validUserVars.
  destruct v as [| | b | n | s | l | ctor fields]; simpl;
    rewrite ?andb_false_r; try discriminate.
  intros H. exists ctor, fields. split; [reflexivity|].
  destruct (fields !! "constructor") as [own|]; [right; eauto|].
  destruct ctor as [name|]; [|discriminate].
  apply String.eqb_eq in H. left. congruence.
Qed.

(** Without an own [constructor], the inherited one decides. *)
Lemma validUserVars_inherited (ctor : option string)
    (fields : gmap string jsval) :
  fields !! "constructor" = None ->
  validUserVars (JObj ctor fields) =
    match ctor with
    | Some name => String.eqb name "Object"
    | None => false
    end.
Proof. intros H. unfold validUserVars. simpl. rewrite H. reflexivity. Qed.

(** A value that is not an object fails the test. *)
Lemma validUserVars_not_object (v : jsval) :
  (forall ctor fields, v <> JObj ctor fields) -> validUserVars v = false.
Proof.
  intros H. destruct (validUserVars v) eqn:Hv; [|reflexivity].
  apply validUserVars_true in Hv. destruct Hv as (ctor & fields & -> & _).
  destruct (H ctor fields eq_refl).
Qed.

(** The purpose branch for a configured slot and a user object. *)
Lemma prepare_purpose (args : PurposeArgs) (t : Template) (u : User) :
  a_user args = Some u ->
  _sendMail_prepare this (purpose_options args (Some t)) =
    inr {| r_message :=
             {| msg_from := this_fromAddress this;
                msg_to := or (user_get u "email") (user_get u "username");
                msg_subject := tpl_subject t |};
           r_templateVars :=
             object (object_assign (base_vars (a_link args) (a_appName args) u)
                       (user_vars (tpl_callback t) (Some u)));
           r_pathPlainText := tpl_pathPlainText t;
           r_pathHtml := tpl_pathHtml t;
           r_htmlInliner := tpl_htmlInliner t;
           r_configurationSetName := tpl_configurationSetName t |}.
Proof. intros Hu. unfold _sendMail_prepare. simpl. rewrite Hu. reflexivity. Qed.

(** The recipient of a purpose request: the email attribute when it is
    truthy, the username attribute otherwise. *)
Lemma purpose_recipient (args : PurposeArgs) (t : Template) (u : User) r :
  a_user args = Some u ->
  _sendMail_prepare this (purpose_options args (Some t)) = inr r ->
  msg_to (r_message r) =
    if truthy (user_get u "email") then user_get u "email"
    else user_get u "username".
Proof.
  intros Hu. rewrite (prepare_purpose args t u Hu). intros [= <-]. reflexivity.
Qed.

Lemma base_vars_dom (link appName : jsval) (u : User) :
  dom (base_vars link appName u) =
    ({["link"]} ∪ {["appName"]} ∪ {["username"]} ∪ {["email"]} : gset string).
Proof. unfold base_vars. rewrite !dom_insert_L. set_solver. Qed.


(** C3, the code at a user without email and without username: the
    password-reset call does not fail; the payload goes to the transport
    with the undefined recipient and the promise fulfils. *)
Theorem reset_without_recipient_is_sent :
  user_get Sample.nobody "email" = JUndefined /\
  user_get Sample.nobody "username" = JUndefined /\
  sendPasswordResetEmail Sample.world Sample.adapter
    (Sample.resetArgs Sample.nobody) =
  (Returns (Fulfilled (JStr "MessageId")),
   [EvReadFile (JStr "reset.txt");
    EvSend (this_ses Sample.adapter)
      {| p_from := JStr "noreply@x.org";
         p_to := [JUndefined];
         p_subject := JStr "Reset";
         p_body_text := JStr "Reset via {{link}}";
         p_body_html := JUndefined;
         p_ConfigurationSetName := JUndefined |}]).
Proof. repeat split. Qed.

End Purpose.


Example purpose_variables_overlay :
  exists r,
    _sendMail_prepare Sample.adapter
      (purpose_options (Sample.resetArgs Sample.ann) (Some Sample.tierTemplate))
      = inr r /\
    r_templateVars r =
      object (<["tier" := JStr "gold"]> (<["link" := JStr "http://x/vip"]>
             (<["appName" := JStr "App"]> (<["username" := JStr "ann"]>
             (<["email" := JStr "a@b.com"]> ∅))))).
Proof. eexists. split; [reflexivity|]. vm_compute. reflexivity. Qed.

(** ** Properties of the composition and of the dispatch *)

Section Composition.

Context (w : World) (this : Adapter).

(** The plain-text load fails: the generator stops after that one read. *)
Lemma compose_plain_load_fails (r : Resolved) (cause : exn) :
  readFile w (r_pathPlainText r) = inl cause ->
  _sendMail_compose w r [] = (inl cause, [EvReadFile (r_pathPlainText r)]).
Proof.
  intros H. unfold _sendMail_compose, loadEmailTemplate, io_bind, io_emit, io_lift.
  simpl. rewrite H. reflexivity.
Qed.

(** The HTML load fails after the text body was produced. *)
Lemma compose_html_load_fails (r : Resolved) (cause : exn) content text :
  readFile w (r_pathPlainText r) = inr content ->
  lodash_template w content (r_templateVars r) = inr text ->
  truthy (r_pathHtml r) = true ->
  readFile w (r_pathHtml r) = inl cause ->
  _sendMail_compose w r [] =
    (inl cause, [EvReadFile (r_pathPlainText r); EvReadFile (r_pathHtml r)]).
Proof.
  intros Hp Ht Hh Hf.
  unfold _sendMail_compose, loadEmailTemplate, io_bind, io_emit, io_lift.
  simpl. rewrite Hp, Ht, Hh. simpl. rewrite Hf. reflexivity.
Qed.

(** C1, as the code has it: when a template load fails, for the
    plain-text or for the HTML path, the transport is never invoked, the
    cause is written to the error console, and the promise returned to the
    caller fulfils with undefined; it is not rejected. *)
Theorem load_failure_is_logged (options : MailOptions) (r : Resolved)
    (cause : exn) :
  _sendMail_prepare this options = inr r ->
  load_fails w r cause ->
  fst (_sendMail w this options) = Returns (Fulfilled JUndefined) /\
  last (snd (_sendMail w this options)) = Some (EvConsoleError cause) /\
  never_sent (snd (_sendMail w this options)).
Proof.
  intros Hprep Hfail. unfold _sendMail. rewrite Hprep.
  destruct Hfail as [Hp | (content & text & Hp & Ht & Hh & Hf)].
  - rewrite (compose_plain_load_fails r cause Hp). simpl.
    repeat split. intros c p [H|[H|[]]]; discriminate.
  - rewrite (compose_html_load_fails r cause content text Hp Ht Hh Hf). simpl.
    repeat split. intros c p [H|[H|[H|[]]]]; discriminate.
Qed.

(** What a successful run of the generator looks like. *)
Lemma compose_success (r : Resolved) (payload : Payload) (tr : list event) :
  _sendMail_compose w r [] = (inr payload, tr) ->
  exists content text,
    readFile w (r_pathPlainText r) = inr content /\
    lodash_template w content (r_templateVars r) = inr text /\
    payload =
      {| p_from := msg_from (r_message r);
         p_to := [msg_to (r_message r)];
         p_subject := msg_subject (r_message r);
         p_body_text := JStr text;
         p_body_html := p_body_html payload;
         p_ConfigurationSetName := r_configurationSetName r |}.
Proof.
  unfold _sendMail_compose, loadEmailTemplate, io_bind, io_emit, io_lift, io_ret.
  simpl.
  destruct (readFile w (r_pathPlainText r)) as [e|content] eqn:Hp;
    [discriminate|].
  destruct (lodash_template w content (r_templateVars r)) as [e|text] eqn:Ht;
    [discriminate|].
  intros H. exists content, text. split; [reflexivity|]. split; [exact Ht|].
  destruct (truthy (r_pathHtml r)); simpl in H.
  - destruct (readFile w (r_pathHtml r)) as [e|html]; [discriminate|].
    destruct (lodash_template w html (r_templateVars r)) as [e|compiled];
      [discriminate|].
    destruct (truthy (r_htmlInliner r)); simpl in H.
    + destruct (juice w compiled) as [e|inlined]; [discriminate|].
      injection H as <- <-. reflexivity.
    + injection H as <- <-. reflexivity.
  - injection H as <- <-. reflexivity.
Qed.

(** C8: when the composition succeeds, the payload handed to the
    transport (the last event of the call, and the only send) has as
    recipients the one-element sequence of the resolved recipient, and
    carries the resolved subject and the interpolated text as they are. *)
Theorem payload_carries_message (options : MailOptions) (r : Resolved)
    (payload : Payload) (tr : list event) :
  _sendMail_prepare this options = inr r ->
  _sendMail_compose w r [] = (inr payload, tr) ->
  p_to payload = [msg_to (r_message r)] /\
  p_subject payload = msg_subject (r_message r) /\
  (exists content text,
     readFile w (r_pathPlainText r) = inr content /\
     lodash_template w content (r_templateVars r) = inr text /\
     p_body_text payload = JStr text) /\
  snd (_sendMail w this options) = (tr ++ [EvSend (this_ses this) payload])%list.
Proof.
  intros Hprep Hc.
  destruct (compose_success r payload tr Hc) as (content & text & Hp & Ht & Hpay).
  repeat split.
  - rewrite Hpay. reflexivity.
  - rewrite Hpay. reflexivity.
  - exists content, text. rewrite Hpay. auto.
  - unfold _sendMail. rewrite Hprep, Hc. reflexivity.
Qed.

End Composition.

Lemma load_failure_is_logged_witness :
  fst (_sendMail Sample.emptyDisk Sample.adapter
         (send_options (Sample.sendArgs (JStr "welcome") (JStr "Hi") (JStr "a@b.com"))))
    = Returns (Fulfilled JUndefined) /\
  last (snd (_sendMail Sample.emptyDisk Sample.adapter
         (send_options (Sample.sendArgs (JStr "welcome") (JStr "Hi") (JStr "a@b.com")))))
    = Some (EvConsoleError (Raised (JStr "ENOENT"))) /\
  never_sent (snd (_sendMail Sample.emptyDisk Sample.adapter
         (send_options (Sample.sendArgs (JStr "welcome") (JStr "Hi") (JStr "a@b.com"))))).
Proof.
  eapply (load_failure_is_logged Sample.emptyDisk Sample.adapter).
  - reflexivity.
  - left. reflexivity.
Defined.

(** C1, as stated, fails: the plain-text load fails and the promise
    returned by [send] fulfils with undefined instead of being rejected. *)
Lemma load_failure_counterexample :
  readFile Sample.emptyDisk (JStr "welcome.txt") = inl (Raised (JStr "ENOENT")) /\
  send Sample.emptyDisk Sample.adapter
    (Sample.sendArgs (JStr "welcome") (JStr "Hi") (JStr "a@b.com")) =
  (Returns (Fulfilled JUndefined),
   [EvReadFile (JStr "welcome.txt"); EvConsoleError (Raised (JStr "ENOENT"))]) /\
  ~ (exists reason,
       fst (send Sample.emptyDisk Sample.adapter
              (Sample.sendArgs (JStr "welcome") (JStr "Hi") (JStr "a@b.com")))
       = Returns (Rejected reason)).
Proof.
  repeat split. intros [reason H]. discriminate H.
Qed.

(** The same happens on the HTML path of a purpose request. *)
Example html_load_failure_is_logged :
  sendVerificationEmail Sample.world Sample.adapter (Sample.resetArgs Sample.ann) =
  (Returns (Fulfilled JUndefined),
   [EvReadFile (JStr "verify.txt"); EvReadFile (JStr "verify.html");
    EvConsoleError (Raised (JStr "ENOENT"))]).
Proof. reflexivity. Qed.

Lemma payload_carries_message_witness :
  snd (sendPasswordResetEmail Sample.world Sample.adapter
         (Sample.resetArgs Sample.ann)) =
  [EvReadFile (JStr "reset.txt");
   EvSend (this_ses Sample.adapter)
     {| p_from := JStr "noreply@x.org";
        p_to := [JStr "a@b.com"];
        p_subject := JStr "Reset";
        p_body_text := JStr "Reset via {{link}}";
        p_body_html := JUndefined;
        p_ConfigurationSetName := JUndefined |}].
Proof.
  refine (proj2 (proj2 (proj2 (payload_carries_message Sample.world Sample.adapter
    (purpose_options (Sample.resetArgs Sample.ann) (Some Sample.resetTemplate))
    _ _ [EvReadFile (JStr "reset.txt")] _ _)))); reflexivity.
Defined.

(** ** Further properties of the constructor *)

Section ConstructorMore.

Lemma check_slot_insert_ne (templates : gmap string Template)
    (key slot : string) (t : Template) :
  key <> slot ->
  check_slot (<[key := t]> templates) slot = check_slot templates slot.
Proof.
  intros Hne. unfold check_slot, slot_fields.
  rewrite lookup_insert_ne by exact Hne. reflexivity.
Qed.

(** X1: The constructor validates the two built-in slots and nothing else:
    adding or replacing a template under any other name changes neither
    the error it throws nor whether it succeeds, and the template is kept
    as it is in [this.templates]. *)
Theorem constructor_ignores_named_templates (o : Options) (key : string)
    (t : Template) :
  key <> "passwordResetEmail" -> key <> "verificationEmail" ->
  (forall e, constructor (Some o) = inl e ->
     constructor (Some (with_template o key t)) = inl e) /\
  (forall a, constructor (Some o) = inr a ->
     constructor (Some (with_template o key t)) =
       inr {| this_ses := this_ses a;
              this_fromAddress := this_fromAddress a;
              this_templates := <[key := t]> (this_templates a) |}).
Proof.
  intros Hp Hv. unfold constructor, with_template. simpl.
  destruct (negb (truthy (opt_accessKeyId o)) || negb (truthy (opt_secretAccessKey o))
            || negb (truthy (opt_region o)) || negb (truthy (opt_fromAddress o))).
  - split; [auto | discriminate].
  - rewrite !check_slot_insert_ne by assumption.
    destruct (check_slot (default ∅ (opt_templates o)) "passwordResetEmail");
      [split; [auto | discriminate]|].
    destruct (check_slot (default ∅ (opt_templates o)) "verificationEmail");
      [split; [auto | discriminate]|].
    split; [discriminate|]. intros a [= <-]. reflexivity.
Qed.

(** X2: A built-in slot with a string subject and a string plain-text path
    whose callback is a truthy value that is not a function makes the
    constructor throw the callback error: for the password-reset slot
    whatever the other slot holds, for the verification slot when the
    password-reset slot, which is checked first, is well-formed. *)
Theorem constructor_rejects_callback (o : Options) (slot : string)
    (t : Template) (v : jsval) :
  credentials_given o ->
  default ∅ (opt_templates o) !! slot = Some t ->
  typeof (tpl_subject t) = "string" ->
  typeof (tpl_pathPlainText t) = "string" ->
  tpl_callback t = CbVal v -> truthy v = true ->
  slot = "passwordResetEmail" \/
  (slot = "verificationEmail" /\
   slot_well_formed (default ∅ (opt_templates o)) "passwordResetEmail") ->
  constructor (Some o) =
    inl (Error "AmazonSESAdapter template callback is not a function.").
Proof.
  intros Hc Ht Hs Hp Hcb Hv Hslot.
  rewrite (constructor_with_credentials o Hc). simpl forEach.
  assert (check_slot (default ∅ (opt_templates o)) slot =
          Some (Error "AmazonSESAdapter template callback is not a function."))
    as Hcheck.
  { unfold check_slot, slot_fields. rewrite Ht, Hs, Hp, Hcb. simpl. rewrite Hv.
    destruct v; simpl in *; try discriminate; reflexivity. }
  destruct Hslot as [-> | [-> Hwf]].
  - rewrite Hcheck. reflexivity.
  - apply check_slot_None in Hwf. rewrite Hwf, Hcheck. reflexivity.
Qed.

End ConstructorMore.

Lemma constructor_ignores_named_templates_witness :
  constructor (Some (with_template Sample.options "empty" Cases.emptyTemplate)) =
    inr {| this_ses := this_ses Sample.adapter;
           this_fromAddress := this_fromAddress Sample.adapter;
           this_templates := <["empty" := Cases.emptyTemplate]> Sample.templates |}.
Proof.
  refine (proj2 (constructor_ignores_named_templates Sample.options "empty"
                   Cases.emptyTemplate _ _) Sample.adapter _);
    first [discriminate | reflexivity].
Defined.

Lemma constructor_rejects_callback_witness :
  constructor (Some Cases.badCallbackOptions) =
    inl (Error "AmazonSESAdapter template callback is not a function.").
Proof.
  refine (constructor_rejects_callback Cases.badCallbackOptions
            "passwordResetEmail" Cases.badCallbackTemplate (JNum 1) _ _ _ _ _ _ _);
    first [ left; reflexivity
          | reflexivity
          | repeat split ].
Defined.

(** ** Further properties of the composition and of the dispatch *)

Section Dispatch.

Context (w : World) (this : Adapter).

Local Ltac run_compose :=
  unfold _sendMail_compose, loadEmailTemplate, io_bind, io_emit, io_lift, io_ret;
  simpl.

(** The generator reads the plain-text template first and the HTML
    template second, if at all; when it returns a payload it has made all
    the reads of [template_reads]. *)
Lemma compose_reads (r : Resolved) :
  exists res tr,
    _sendMail_compose w r [] = (res, tr) /\
    (tr = [EvReadFile (r_pathPlainText r)] \/
     (truthy (r_pathHtml r) = true /\
      tr = [EvReadFile (r_pathPlainText r); EvReadFile (r_pathHtml r)])) /\
    (forall payload, res = inr payload -> tr = template_reads r).
Proof.
  unfold template_reads. run_compose.
  destruct (readFile w (r_pathPlainText r)) as [e|content];
    [eexists _, _; split; [reflexivity|]; split; [auto | discriminate]|].
  destruct (lodash_template w content (r_templateVars r)) as [e|text];
    [eexists _, _; split; [reflexivity|]; split; [auto | discriminate]|].
  destruct (truthy (r_pathHtml r)) eqn:Hh; simpl;
    [|eexists _, _; split; [reflexivity|]; split; auto].
  destruct (readFile w (r_pathHtml r)) as [e|src];
    [eexists _, _; split; [reflexivity|]; split; [auto | discriminate]|].
  destruct (lodash_template w src (r_templateVars r)) as [e|compiled];
    [eexists _, _; split; [reflexivity|]; split; [auto | discriminate]|].
  destruct (truthy (r_htmlInliner r)); simpl;
    [|eexists _, _; split; [reflexivity|]; split; auto].
  destruct (juice w compiled) as [e|inlined];
    eexists _, _; (split; [reflexivity|]); split; auto; discriminate.
Qed.

(** [_sendMail] after a successful preparation, by the result of the
    generator. *)
Lemma sendMail_returns (options : MailOptions) (r : Resolved) res tr :
  _sendMail_prepare this options = inr r ->
  _sendMail_compose w r [] = (res, tr) ->
  _sendMail w this options =
    match res with
    | inr payload =>
        (Returns (match ses_send w (this_ses this) payload with
                  | inl error => Rejected error
                  | inr data => Fulfilled data
                  end),
         (tr ++ [EvSend (this_ses this) payload])%list)
    | inl error =>
        (Returns (Fulfilled JUndefined), (tr ++ [EvConsoleError error])%list)
    end.
Proof.
  intros Hp Hc. unfold _sendMail. rewrite Hp, Hc. destruct res; reflexivity.
Qed.

Lemma prepare_error (options : MailOptions) (e : exn) :
  _sendMail_prepare this options = inl e ->
  truthy (o_templateName options) = true ->
  validation_error options e.
Proof.
  unfold _sendMail_prepare, validation_error. intros H Hn. rewrite Hn in H.
  revert H. repeat case_match; intros [= <-]; auto.
Qed.

(** X3: A call that throws has done nothing: no file was read, nothing was
    sent or logged, because every exception is raised by the synchronous
    part, before the generator starts.  On the named branch, taken for a
    truthy template name, the exception is one of three: the
    unknown-template, the missing-subject or the missing-recipient
    error. *)
Theorem sendMail_throw_is_clean (options : MailOptions) (e : exn) :
  fst (_sendMail w this options) = Throws e ->
  snd (_sendMail w this options) = [] /\
  _sendMail_prepare this options = inl e /\
  (truthy (o_templateName options) = true -> validation_error options e).
Proof.
  unfold _sendMail.
  destruct (_sendMail_prepare this options) as [e'|r] eqn:Hp.
  - simpl. intros [= <-]. split; [reflexivity|]. split; [reflexivity|].
    apply prepare_error. exact Hp.
  - destruct (_sendMail_then w this (_sendMail_compose w r [])). discriminate.
Qed.

(** X4: The trace of every call has one of three shapes: empty, when the call
    throws; otherwise the read of the plain-text template, then the read
    of the HTML template if one is configured and the generator got that
    far, then exactly one final event, the send or the console error. *)
Theorem sendMail_trace_shape (options : MailOptions) :
  (exists e, _sendMail w this options = (Throws e, [])) \/
  (exists r p fin,
     _sendMail_prepare this options = inr r /\
     fst (_sendMail w this options) = Returns p /\
     final_event fin /\
     (snd (_sendMail w this options) = [EvReadFile (r_pathPlainText r); fin] \/
      (truthy (r_pathHtml r) = true /\
       snd (_sendMail w this options) =
         [EvReadFile (r_pathPlainText r); EvReadFile (r_pathHtml r); fin]))).
Proof.
  destruct (_sendMail_prepare this options) as [e|r] eqn:Hp.
  - left. exists e. apply sendMail_throws. exact Hp.
  - right. destruct (compose_reads r) as (res & tr & Hc & Htr & _).
    rewrite (sendMail_returns options r res tr Hp Hc).
    destruct res as [error|payload].
    + exists r, (Fulfilled JUndefined), (EvConsoleError error).
      repeat (split; [reflexivity|]).
      destruct Htr as [-> | [Hh ->]]; [left | right; split; [exact Hh|]];
        reflexivity.
    + exists r, (match ses_send w (this_ses this) payload with
                 | inl error => Rejected error
                 | inr data => Fulfilled data
                 end), (EvSend (this_ses this) payload).
      repeat (split; [reflexivity|]).
      destruct Htr as [-> | [Hh ->]]; [left | right; split; [exact Hh|]];
        reflexivity.
Qed.

(** X5: The promise is rejected with [e] exactly when the generator produced
    a payload and the transport answered that payload with the error [e];
    nothing is then written to the console, and the send is the last
    event. *)
Theorem rejection_comes_from_transport (options : MailOptions) (e : exn) :
  fst (_sendMail w this options) = Returns (Rejected e) <->
  exists r payload,
    _sendMail_prepare this options = inr r /\
    _sendMail_compose w r [] = (inr payload, template_reads r) /\
    ses_send w (this_ses this) payload = inl e /\
    snd (_sendMail w this options) =
      (template_reads r ++ [EvSend (this_ses this) payload])%list.
Proof.
  split.
  - destruct (_sendMail_prepare this options) as [e'|r] eqn:Hp.
    + rewrite (sendMail_throws w this options e' Hp). discriminate.
    + destruct (compose_reads r) as (res & tr & Hc & _ & Hreads).
      rewrite (sendMail_returns options r res tr Hp Hc).
      destruct res as [error|payload]; [discriminate|].
      rewrite (Hreads payload eq_refl) in *. simpl.
      destruct (ses_send w (this_ses this) payload) as [e'|d] eqn:Hs;
        [|discriminate].
      intros [= <-]. exists r, payload. auto.
  - intros (r & payload & Hp & Hc & Hs & _).
    rewrite (sendMail_returns options r _ _ Hp Hc), Hs. reflexivity.
Qed.

(** X6: A fulfilled promise does not mean that a mail was sent: its value is
    the data with which the transport answered the payload, or it is
    undefined after a failure of the generator that was written to the
    console, in which case nothing was sent. *)
Theorem fulfilment_cases (options : MailOptions) (value : jsval) :
  fst (_sendMail w this options) = Returns (Fulfilled value) ->
  (exists payload,
     last (snd (_sendMail w this options)) = Some (EvSend (this_ses this) payload) /\
     ses_send w (this_ses this) payload = inr value /\
     never_logged (snd (_sendMail w this options))) \/
  (value = JUndefined /\
   exists error,
     last (snd (_sendMail w this options)) = Some (EvConsoleError error) /\
     never_sent (snd (_sendMail w this options))).
Proof.
  destruct (_sendMail_prepare this options) as [e'|r] eqn:Hp.
  - rewrite (sendMail_throws w this options e' Hp). discriminate.
  - destruct (compose_reads r) as (res & tr & Hc & Htr & _).
    rewrite (sendMail_returns options r res tr Hp Hc).
    destruct res as [error|payload]; simpl.
    + intros [= <-]. right. split; [reflexivity|]. exists error.
      destruct Htr as [-> | [_ ->]]; simpl; (split; [reflexivity|]);
        intros c p H; simpl in H; intuition discriminate.
    + destruct (ses_send w (this_ses this) payload) as [e'|d] eqn:Hs;
        [discriminate|].
      intros [= <-]. left. exists payload.
      destruct Htr as [-> | [_ ->]]; simpl; (split; [reflexivity|]);
        (split; [exact Hs|]);
        intros err H; simpl in H; intuition discriminate.
Qed.

(** X7: A failure of the interpolation or of the inlining is treated like a
    failed load: it is written to the console after the reads made so
    far, nothing is sent, and the promise fulfils with undefined.  When
    the text cannot be interpolated the HTML template is not even read. *)
Theorem render_failure_is_logged (options : MailOptions) (r : Resolved)
    (cause : exn) (reads : list event) :
  _sendMail_prepare this options = inr r ->
  render_fails w r cause reads ->
  _sendMail w this options =
    (Returns (Fulfilled JUndefined), (reads ++ [EvConsoleError cause])%list).
Proof.
  intros Hp (content & Hc & Hcase).
  assert (_sendMail_compose w r [] = (inl cause, reads)) as Hcomp.
  { run_compose. rewrite Hc.
    destruct Hcase as [[Ht ->] | (text & src & Ht & Hh & Hs & -> & Hlast)].
    - rewrite Ht. reflexivity.
    - rewrite Ht, Hh. simpl. rewrite Hs.
      destruct Hlast as [Hl | (compiled & Hl & Hi & Hj)].
      + rewrite Hl. reflexivity.
      + rewrite Hl, Hi. simpl. rewrite Hj. reflexivity. }
  rewrite (sendMail_returns options r _ _ Hp Hcomp). reflexivity.
Qed.

(** X8: The generator returns a payload exactly when every step it runs
    succeeds, and the payload is then determined: sender, subject and
    configuration-set name as resolved, the recipient as a one-element
    list, the interpolated text, and as HTML body undefined without an
    HTML path (whatever the inlining flag), the interpolated HTML with
    one, inlined only when the flag is truthy.  The text is never passed
    to [juice]. *)
Theorem compose_payload_spec (r : Resolved) (payload : Payload) :
  (forall tr, _sendMail_compose w r [] = (inr payload, tr) ->
     tr = template_reads r) /\
  (_sendMail_compose w r [] = (inr payload, template_reads r) <->
   exists content text html,
     readFile w (r_pathPlainText r) = inr content /\
     lodash_template w content (r_templateVars r) = inr text /\
     html_body w r html /\
     payload =
       {| p_from := msg_from (r_message r);
          p_to := [msg_to (r_message r)];
          p_subject := msg_subject (r_message r);
          p_body_text := JStr text;
          p_body_html := html;
          p_ConfigurationSetName := r_configurationSetName r |}).
Proof.
  split.
  - intros tr Hc. destruct (compose_reads r) as (res & tr' & Hc' & _ & Hreads).
    rewrite Hc in Hc'. injection Hc' as <- <-. eauto.
  - unfold template_reads, html_body. run_compose. split.
    + destruct (readFile w (r_pathPlainText r)) as [e|content] eqn:Hc;
        [discriminate|].
      destruct (lodash_template w content (r_templateVars r)) as [e|text] eqn:Ht;
        [discriminate|].
      destruct (truthy (r_pathHtml r)) eqn:Hh; simpl.
      * destruct (readFile w (r_pathHtml r)) as [e|src] eqn:Hs; [discriminate|].
        destruct (lodash_template w src (r_templateVars r)) as [e|compiled] eqn:Hl;
          [discriminate|].
        destruct (truthy (r_htmlInliner r)) eqn:Hi; simpl.
        -- destruct (juice w compiled) as [e|inlined] eqn:Hj; [discriminate|].
           intros [= <-]. exists content, text, (JStr inlined).
           split; [reflexivity|]. split; [exact Ht|]. split; [|reflexivity].
           right. split; [reflexivity|]. exists src, compiled.
           split; [reflexivity|]. split; [exact Hl|].
           right. split; [reflexivity|]. exists inlined. auto.
        -- intros [= <-]. exists content, text, (JStr compiled).
           split; [reflexivity|]. split; [exact Ht|]. split; [|reflexivity].
           right. split; [reflexivity|]. exists src, compiled.
           split; [reflexivity|]. split; [exact Hl|]. left. auto.
      * intros [= <-]. exists content, text, JUndefined.
        split; [reflexivity|]. split; [exact Ht|]. split; [|reflexivity].
        left. auto.
    + intros (content & text & html & Hc & Ht & Hbody & ->).
      rewrite Hc, Ht.
      destruct Hbody as [[Hh ->] | (Hh & src & compiled & Hs & Hl & Hlast)];
        rewrite Hh; simpl; [reflexivity|].
      rewrite Hs, Hl.
      destruct Hlast as [[Hi ->] | (Hi & inlined & Hj & ->)]; rewrite Hi; simpl;
        [reflexivity|].
      rewrite Hj. reflexivity.
Qed.

End Dispatch.

Lemma sendMail_throw_is_clean_witness :
  snd (_sendMail Sample.world Sample.adapter
         (send_options (Sample.sendArgs (JStr "goodbye") (JStr "Bye") JUndefined)))
    = [] /\
  _sendMail_prepare Sample.adapter
    (send_options (Sample.sendArgs (JStr "goodbye") (JStr "Bye") JUndefined))
    = inl (Error "Could not find template with name goodbye") /\
  (truthy (JStr "goodbye") = true ->
   validation_error
     (send_options (Sample.sendArgs (JStr "goodbye") (JStr "Bye") JUndefined))
     (Error "Could not find template with name goodbye")).
Proof.
  apply (sendMail_throw_is_clean Sample.world Sample.adapter). reflexivity.
Defined.

Lemma rejection_comes_from_transport_witness :
  fst (_sendMail Cases.throttled Sample.adapter
         (purpose_options (Sample.resetArgs Sample.ann) (Some Sample.resetTemplate)))
    = Returns (Rejected (Raised (JStr "Throttling"))).
Proof.
  apply (proj2 (rejection_comes_from_transport Cases.throttled Sample.adapter _ _)).
  eexists _, _. repeat split; reflexivity.
Defined.

Lemma fulfilment_cases_witness :
  (exists payload,
     last (snd (_sendMail Sample.emptyDisk Sample.adapter
                  (send_options Cases.welcomeArgs)))
       = Some (EvSend (this_ses Sample.adapter) payload) /\
     ses_send Sample.emptyDisk (this_ses Sample.adapter) payload = inr JUndefined /\
     never_logged (snd (_sendMail Sample.emptyDisk Sample.adapter
                          (send_options Cases.welcomeArgs)))) \/
  (JUndefined = JUndefined /\
   exists error,
     last (snd (_sendMail Sample.emptyDisk Sample.adapter
                  (send_options Cases.welcomeArgs)))
       = Some (EvConsoleError error) /\
     never_sent (snd (_sendMail Sample.emptyDisk Sample.adapter
                        (send_options Cases.welcomeArgs)))).
Proof.
  apply (fulfilment_cases Sample.emptyDisk Sample.adapter
           (send_options Cases.welcomeArgs) JUndefined).
  reflexivity.
Defined.

Lemma render_failure_is_logged_witness :
  _sendMail Cases.brokenEngine Sample.adapter
    (purpose_options (Sample.resetArgs Sample.ann) (Some Sample.verifyTemplate)) =
  (Returns (Fulfilled JUndefined),
   [EvReadFile (JStr "verify.txt");
    EvConsoleError (Raised (JStr "ReferenceError"))]).
Proof.
  eapply (render_failure_is_logged Cases.brokenEngine Sample.adapter _ _
            (Raised (JStr "ReferenceError")) [EvReadFile (JStr "verify.txt")]).
  - reflexivity.
  - exists "Verify via {{link}}". split; [reflexivity|]. left. split; reflexivity.
Defined.

(** With an HTML path and the inlining flag, the HTML body is the output
    of [juice]; the text body is not inlined. *)
Example inlined_html_payload :
  snd (sendVerificationEmail Cases.htmlWorld Sample.adapter
         (Sample.resetArgs Sample.ann)) =
  [EvReadFile (JStr "verify.txt"); EvReadFile (JStr "verify.html");
   EvSend (this_ses Sample.adapter)
     {| p_from := JStr "noreply@x.org";
        p_to := [JStr "a@b.com"];
        p_subject := JStr "Verify";
        p_body_text := JStr "Verify via {{link}}";
        p_body_html := JStr "<!--inlined--><p>{{link}}</p>";
        p_ConfigurationSetName := JUndefined |}].
Proof. reflexivity. Qed.

(** ** Further properties of the purpose path *)

Section PurposeMore.

Context (this : Adapter).

(** The purpose branch reads only the link, the application name, the
    user and the template object of its options. *)
Lemma prepare_purpose_options (options : MailOptions) (t : Template) (u : User) :
  truthy (o_templateName options) = false ->
  o_templateConfig options = Some t ->
  o_user options = Some u ->
  _sendMail_prepare this options =
    inr {| r_message :=
             {| msg_from := this_fromAddress this;
                msg_to := or (user_get u "email") (user_get u "username");
                msg_subject := tpl_subject t |};
           r_templateVars :=
             object (object_assign (base_vars (o_link options) (o_appName options) u)
                       (user_vars (tpl_callback t) (Some u)));
           r_pathPlainText := tpl_pathPlainText t;
           r_pathHtml := tpl_pathHtml t;
           r_htmlInliner := tpl_htmlInliner t;
           r_configurationSetName := tpl_configurationSetName t |}.
Proof.
  intros Hn Ht Hu. unfold _sendMail_prepare. rewrite Hn, Ht, Hu. reflexivity.
Qed.

(** X9: In the purpose branch nothing of the message can be set per call: the
    sender is the adapter's address, the subject and the configuration-set
    name are the template's, and the recipient is the user's email
    attribute when that is truthy and the username attribute otherwise
    (an empty email falls back too), whatever subject, sender, recipient
    or configuration-set name the options carry. *)
Theorem purpose_message_is_fixed (options : MailOptions) (t : Template)
    (u : User) :
  truthy (o_templateName options) = false ->
  o_templateConfig options = Some t ->
  o_user options = Some u ->
  exists r,
    _sendMail_prepare this options = inr r /\
    msg_from (r_message r) = this_fromAddress this /\
    msg_subject (r_message r) = tpl_subject t /\
    msg_to (r_message r) =
      (if truthy (user_get u "email") then user_get u "email"
       else user_get u "username") /\
    r_configurationSetName r = tpl_configurationSetName t.
Proof.
  intros Hn Ht Hu. eexists. split.
  - apply (prepare_purpose_options options t u Hn Ht Hu).
  - repeat split.
Qed.

(** X10: Whatever the callback returns, the four base variables stay defined,
    and every variable is either the base one or an entry of the object
    that the callback returned, an object built by [Object] or one with an
    own [constructor] property. *)
Theorem purpose_base_variables_defined (args : PurposeArgs) (t : Template)
    (u : User) :
  a_user args = Some u ->
  exists r vars,
    _sendMail_prepare this (purpose_options args (Some t)) = inr r /\
    r_templateVars r = object vars /\
    (forall key, In key ["link"; "appName"; "username"; "email"] ->
       is_Some (vars !! key)) /\
    (forall key,
       vars !! key = base_vars (a_link args) (a_appName args) u !! key \/
       exists f ctor overlay,
         tpl_callback t = CbFun f /\ f (Some u) = JObj ctor overlay /\
         (ctor = Some "Object" \/ is_Some (overlay !! "constructor")) /\
         is_Some (overlay !! key) /\ vars !! key = overlay !! key).
Proof.
  intros Hu. rewrite (prepare_purpose this args t u Hu).
  eexists _, _. split; [reflexivity|]. split; [reflexivity|].
  set (base := base_vars (a_link args) (a_appName args) u).
  assert (forall key, In key ["link"; "appName"; "username"; "email"] ->
            is_Some (base !! key)) as Hbase.
  { intros key Hkey. apply elem_of_dom. unfold base. rewrite base_vars_dom.
    destruct Hkey as [<-|[<-|[<-|[<-|[]]]]]; set_solver. }
  unfold user_vars.
  destruct (tpl_callback t) as [v|f] eqn:Hcb; simpl.
  { replace (truthy v && (typeof v =? "function")) with false
      by (destruct v; simpl; rewrite ?andb_false_r; reflexivity).
    simpl. auto. }
  destruct (validUserVars (f (Some u))) eqn:Hv.
  - apply validUserVars_true in Hv. destruct Hv as (ctor & overlay & Hov & Hctor).
    rewrite Hov. simpl. split.
    + intros key Hkey. destruct (overlay !! key) as [x|] eqn:Hk.
      * exists x. apply lookup_union_Some_l. exact Hk.
      * rewrite (lookup_union_r overlay base key Hk). apply Hbase, Hkey.
    + intros key. destruct (overlay !! key) as [x|] eqn:Hk.
      * right. exists f, ctor, overlay. split; [reflexivity|].
        split; [exact Hov|]. split; [exact Hctor|].
        rewrite Hk. split; [eauto|]. apply lookup_union_Some_l. exact Hk.
      * left. apply lookup_union_r. exact Hk.
  - simpl. rewrite (left_id_L ∅ (∪)). auto.
Qed.

(** X11: The variables of a purpose request are the callback's overlay
    laid over the base set, which is exactly link and appName as passed,
    username as the user's username attribute, and email as the user's
    email attribute when that is truthy and the username attribute
    otherwise.  The overlay is empty when the callback property is not a
    function, when the callback returns something that is not an object,
    and when it returns an object without an own [constructor] that
    [Object] did not build; it is the returned object's own properties
    when that object has no own [constructor] and was built by [Object]. *)
Theorem purpose_variables_exact (args : PurposeArgs) (t : Template) (u : User) :
  a_user args = Some u ->
  exists r overlay,
    _sendMail_prepare this (purpose_options args (Some t)) = inr r /\
    r_templateVars r =
      object (overlay ∪
              <["link" := a_link args]> (<["appName" := a_appName args]>
              (<["username" := user_get u "username"]>
              (<["email" := if truthy (user_get u "email")
                            then user_get u "email"
                            else user_get u "username"]> ∅)))) /\
    (forall v, tpl_callback t = CbVal v -> overlay = ∅) /\
    (forall f, tpl_callback t = CbFun f ->
       (forall ctor fields, f (Some u) <> JObj ctor fields) -> overlay = ∅) /\
    (forall f ctor fields, tpl_callback t = CbFun f ->
       f (Some u) = JObj ctor fields -> fields !! "constructor" = None ->
       (ctor = Some "Object" -> overlay = fields) /\
       (ctor <> Some "Object" -> overlay = ∅)).
Proof.
  intros Hu. rewrite (prepare_purpose this args t u Hu).
  exists (mkResolved
            (mkMessage (this_fromAddress this)
               (or (user_get u "email") (user_get u "username"))
               (tpl_subject t))
            (object (object_assign (base_vars (a_link args) (a_appName args) u)
                       (user_vars (tpl_callback t) (Some u))))
            (tpl_pathPlainText t) (tpl_pathHtml t) (tpl_htmlInliner t)
            (tpl_configurationSetName t)),
         (default ∅ (user_vars (tpl_callback t) (Some u))).
  split; [reflexivity|]. split.
  { simpl. unfold object_assign, base_vars, or.
    destruct (user_vars (tpl_callback t) (Some u)); simpl;
      [reflexivity | rewrite (left_id_L ∅ (∪)); reflexivity]. }
  unfold user_vars. split; [|split].
  - intros v ->. simpl.
    replace (truthy v && (typeof v =? "function")) with false
      by (destruct v; simpl; rewrite ?andb_false_r; reflexivity).
    reflexivity.
  - intros f -> Hnot. simpl. rewrite (validUserVars_not_object _ Hnot).
    reflexivity.
  - intros f ctor fields -> Hf Hown. simpl.
    rewrite Hf, (validUserVars_inherited ctor fields Hown). simpl. split.
    + intros ->. reflexivity.
    + intros Hne. destruct ctor as [name|]; [|reflexivity].
      destruct (String.eqb_spec name "Object") as [-> | _];
        [contradiction | reflexivity].
Qed.

(** X12: The [email] variable offered to the template is the address the mail
    goes to, unless the callback returns an object that defines [email]
    itself, an object built by [Object] or one with an own [constructor]
    property. *)
Theorem purpose_email_variable (args : PurposeArgs) (t : Template) (u : User) :
  a_user args = Some u ->
  (forall f ctor overlay, tpl_callback t = CbFun f ->
     f (Some u) = JObj ctor overlay ->
     ctor = Some "Object" \/ is_Some (overlay !! "constructor") ->
     overlay !! "email" = None) ->
  exists r vars,
    _sendMail_prepare this (purpose_options args (Some t)) = inr r /\
    r_templateVars r = object vars /\
    vars !! "email" = Some (msg_to (r_message r)).
Proof.
  intros Hu Hov. rewrite (prepare_purpose this args t u Hu).
  eexists _, _. split; [reflexivity|]. split; [reflexivity|]. simpl.
  assert (base_vars (a_link args) (a_appName args) u !! "email" =
          Some (or (user_get u "email") (user_get u "username"))) as Hbase
    by reflexivity.
  unfold user_vars.
  destruct (tpl_callback t) as [v|f] eqn:Hcb; simpl.
  { replace (truthy v && (typeof v =? "function")) with false
      by (destruct v; simpl; rewrite ?andb_false_r; reflexivity).
    exact Hbase. }
  destruct (validUserVars (f (Some u))) eqn:Hv.
  - apply validUserVars_true in Hv. destruct Hv as (ctor & overlay & Hf & Hctor).
    rewrite Hf. simpl.
    rewrite (lookup_union_r overlay _ "email"
               (Hov f ctor overlay eq_refl Hf Hctor)).
    exact Hbase.
  - simpl. rewrite (left_id_L ∅ (∪)). exact Hbase.
Qed.

End PurposeMore.

Lemma purpose_message_is_fixed_witness :
  exists r,
    _sendMail_prepare Sample.adapter
      (purpose_options (Sample.resetArgs Cases.bob) (Some Sample.tierTemplate))
      = inr r /\
    msg_from (r_message r) = JStr "noreply@x.org" /\
    msg_subject (r_message r) = JStr "Tier" /\
    msg_to (r_message r) = JStr "bob" /\
    r_configurationSetName r = JStr "tiers".
Proof.
  apply (purpose_message_is_fixed Sample.adapter
           (purpose_options (Sample.resetArgs Cases.bob) (Some Sample.tierTemplate))
           Sample.tierTemplate Cases.bob); reflexivity.
Defined.

Lemma purpose_base_variables_defined_witness :
  exists r vars,
    _sendMail_prepare Sample.adapter
      (purpose_options (Sample.resetArgs Sample.ann) (Some Sample.tierTemplate))
      = inr r /\
    r_templateVars r = object vars /\
    (forall key, In key ["link"; "appName"; "username"; "email"] ->
       is_Some (vars !! key)) /\
    (forall key,
       vars !! key =
         base_vars (JStr "http://x/reset") (JStr "App") Sample.ann !! key \/
       exists f ctor overlay,
         tpl_callback Sample.tierTemplate = CbFun f /\
         f (Some Sample.ann) = JObj ctor overlay /\
         (ctor = Some "Object" \/ is_Some (overlay !! "constructor")) /\
         is_Some (overlay !! key) /\ vars !! key = overlay !! key).
Proof.
  apply (purpose_base_variables_defined Sample.adapter
           (Sample.resetArgs Sample.ann) Sample.tierTemplate Sample.ann).
  reflexivity.
Defined.

Lemma purpose_variables_exact_witness :
  exists r overlay,
    _sendMail_prepare Sample.adapter
      (purpose_options (Sample.resetArgs Sample.ann) (Some Sample.tierTemplate))
      = inr r /\
    r_templateVars r =
      object (overlay ∪
              <["link" := JStr "http://x/reset"]> (<["appName" := JStr "App"]>
              (<["username" := JStr "ann"]> (<["email" := JStr "a@b.com"]> ∅)))) /\
    (forall v, tpl_callback Sample.tierTemplate = CbVal v -> overlay = ∅) /\
    (forall f, tpl_callback Sample.tierTemplate = CbFun f ->
       (forall ctor fields, f (Some Sample.ann) <> JObj ctor fields) ->
       overlay = ∅) /\
    (forall f ctor fields, tpl_callback Sample.tierTemplate = CbFun f ->
       f (Some Sample.ann) = JObj ctor fields ->
       fields !! "constructor" = None ->
       (ctor = Some "Object" -> overlay = fields) /\
       (ctor <> Some "Object" -> overlay = ∅)).
Proof.
  apply (purpose_variables_exact Sample.adapter (Sample.resetArgs Sample.ann)
           Sample.tierTemplate Sample.ann).
  reflexivity.
Defined.

Lemma purpose_email_variable_witness :
  exists r vars,
    _sendMail_prepare Sample.adapter
      (purpose_options (Sample.resetArgs Sample.ann) (Some Sample.tierTemplate))
      = inr r /\
    r_templateVars r = object vars /\
    vars !! "email" = Some (msg_to (r_message r)).
Proof.
  apply (purpose_email_variable Sample.adapter (Sample.resetArgs Sample.ann)
           Sample.tierTemplate Sample.ann).
  - reflexivity.
  - intros f ctor overlay [= <-] [= <- <-] _. reflexivity.
Defined.

(** An object that [Object] did not build passes the test when it has an
    own [constructor] property holding an object named Object. *)
Example own_constructor_passes_test :
  validUserVars
    (JObj (Some "Profile")
       (<["constructor" := object (<["name" := JStr "Object"]> ∅)]>
        (<["email" := JStr "other@b.com"]> ∅))) = true.
Proof. reflexivity. Qed.

(** C7, the code at a callback that returns a plain mapping with a
    variable named [constructor]: the test meant to tell mappings from
    other values reads that entry instead of the constructor, finds no
    name on it, and the whole mapping is discarded; the variables are
    the base set alone, without the [tier] the mapping defines. *)
Theorem callback_mapping_is_discarded :
  cb_call (tpl_callback Cases.shadowTemplate) (Some Sample.ann) =
    object (<["constructor" := JStr "x"]> (<["tier" := JStr "gold"]> ∅)) /\
  validUserVars (cb_call (tpl_callback Cases.shadowTemplate) (Some Sample.ann))
    = false /\
  exists r,
    _sendMail_prepare Sample.adapter
      (purpose_options (Sample.resetArgs Sample.ann) (Some Cases.shadowTemplate))
      = inr r /\
    r_templateVars r =
      object (<["link" := JStr "http://x/reset"]> (<["appName" := JStr "App"]>
             (<["username" := JStr "ann"]> (<["email" := JStr "a@b.com"]> ∅)))) /\
    own_fields (r_templateVars r) !! "tier" = None.
Proof.
  split; [reflexivity|]. split; [reflexivity|].
  eexists. split; [reflexivity|]. split; [vm_compute; reflexivity | reflexivity].
Qed.

(** ** Adapters built by the constructor *)

Section Constructed.

Context (w : World).


(** What the constructor guarantees about the adapter it returns. *)
Lemma constructor_inr (arg : option Options) (a : Adapter) :
  constructor arg = inr a ->
  truthy (this_fromAddress a) = true /\
  slot_well_formed (this_templates a) "passwordResetEmail" /\
  slot_well_formed (this_templates a) "verificationEmail".
Proof.
  unfold constructor.
  destruct (truthy (opt_accessKeyId (default default_options arg)));
    [|discriminate].
  destruct (truthy (opt_secretAccessKey (default default_options arg)));
    [|discriminate].
  destruct (truthy (opt_region (default default_options arg)));
    [|discriminate].
  destruct (truthy (opt_fromAddress (default default_options arg))) eqn:Hf;
    [|discriminate].
  simpl.
  destruct (check_slot _ "passwordResetEmail") eqn:H1; [discriminate|].
  destruct (check_slot _ "verificationEmail") eqn:H2; [discriminate|].
  intros [= <-]. simpl. split; [exact Hf|].
  split; apply check_slot_None; assumption.
Qed.



(** X14: Without a user object a purpose send on such an adapter throws
    before anything is read, sent or logged; when the slot has no
    function as callback, what it throws is the type error of
    [user.get]. *)
Theorem constructed_purpose_without_user (arg : option Options) (a : Adapter)
    (args : PurposeArgs) :
  constructor arg = inr a ->
  a_user args = None ->
  (exists e, sendPasswordResetEmail w a args = (Throws e, [])) /\
  (exists e, sendVerificationEmail w a args = (Throws e, [])) /\
  (forall t v, this_templates a !! "passwordResetEmail" = Some t ->
     tpl_callback t = CbVal v ->
     sendPasswordResetEmail w a args =
       (Throws (TypeError "Cannot read property 'get' of undefined"), [])) /\
  (forall t v, this_templates a !! "verificationEmail" = Some t ->
     tpl_callback t = CbVal v ->
     sendVerificationEmail w a args =
       (Throws (TypeError "Cannot read property 'get' of undefined"), [])).
Proof.
  intros Hc Hu.
  destruct (constructor_inr arg a Hc) as (_ & (t1 & Ht1 & _) & (t2 & Ht2 & _)).
  assert (forall t, _sendMail w a (purpose_options args (Some t)) =
            (Throws (TypeError "Cannot read property 'get' of undefined"), []))
    as Hthrow.
  { intros t. apply sendMail_throws. unfold _sendMail_prepare. simpl.
    rewrite Hu. reflexivity. }
  unfold sendPasswordResetEmail, sendVerificationEmail.
  rewrite Ht1, Ht2, !Hthrow.
  split; [eauto|]. split; [eauto|]. split; intros t v _ _; reflexivity.
Qed.

(** X15: Every payload that an adapter returned by the constructor hands to
    the transport goes to the adapter's own client, has a non-empty
    sender, exactly one recipient entry and a string as text body. *)
Theorem constructed_payload_invariant (arg : option Options) (a : Adapter)
    (options : MailOptions) (client : SesClient) (payload : Payload) :
  constructor arg = inr a ->
  In (EvSend client payload) (snd (_sendMail w a options)) ->
  client = this_ses a /\
  truthy (p_from payload) = true /\
  (exists recipient, p_to payload = [recipient]) /\
  (exists text, p_body_text payload = JStr text).
Proof.
  intros Hc Hin.
  destruct (constructor_inr arg a Hc) as (Hfrom & _ & _).
  destruct (_sendMail_prepare a options) as [e|r] eqn:Hp.
  { rewrite (sendMail_throws w a options e Hp) in Hin. destruct Hin. }
  assert (truthy (msg_from (r_message r)) = true) as Hsender.
  { revert Hp. unfold _sendMail_prepare.
    repeat case_match; try discriminate; intros [= <-]; simpl; try exact Hfrom.
    unfold or. destruct (truthy (o_fromAddress options)) eqn:Hf;
      [exact Hf | exact Hfrom]. }
  destruct (compose_reads w r) as (res & tr & Hcomp & Htr & _).
  rewrite (sendMail_returns w a options r res tr Hp Hcomp) in Hin.
  destruct res as [error|sent]; simpl in Hin.
  - destruct Htr as [-> | [_ ->]]; simpl in Hin; intuition discriminate.
  - destruct (compose_success w r sent tr Hcomp) as (content & text & _ & _ & Hpay).
    assert (EvSend client payload = EvSend (this_ses a) sent) as Heq.
    { destruct Htr as [-> | [_ ->]]; simpl in Hin;
        intuition (try discriminate; congruence). }
    injection Heq as -> ->. rewrite Hpay. simpl.
    split; [reflexivity|]. split; [exact Hsender|]. split; eauto.
Qed.

End Constructed.


Lemma constructed_purpose_without_user_witness :
  sendPasswordResetEmail Sample.world Sample.adapter
    (mkPurposeArgs (JStr "http://x/reset") (JStr "App") None) =
    (Throws (TypeError "Cannot read property 'get' of undefined"), []).
Proof.
  refine (proj1 (proj2 (proj2
            (constructed_purpose_without_user Sample.world (Some Sample.options)
               Sample.adapter
               (mkPurposeArgs (JStr "http://x/reset") (JStr "App") None) _ _)))
            Sample.resetTemplate JUndefined _ _); reflexivity.
Defined.

Lemma constructed_payload_invariant_witness :
  this_ses Sample.adapter = this_ses Sample.adapter /\
  truthy (JStr "team@x.org") = true /\
  (exists recipient, [JStr "a@b.com"] = [recipient]) /\
  (exists text, JStr "Welcome" = JStr text).
Proof.
  refine (constructed_payload_invariant Sample.world (Some Sample.options)
            Sample.adapter (send_options Cases.welcomeArgs)
            (this_ses Sample.adapter)
            {| p_from := JStr "team@x.org"; p_to := [JStr "a@b.com"];
               p_subject := JStr "Hello"; p_body_text := JStr "Welcome";
               p_body_html := JUndefined;
               p_ConfigurationSetName := JStr "news" |} _ _).
  - reflexivity.
  - right. left. reflexivity.
Defined.

(** ** Further properties of the named path *)

Section NamedMore.

Context (w : World) (this : Adapter).

(** X16: A named request interpolates exactly what the caller passed as
    variables: the empty object when the property is undefined, and any
    other value, null included, as it is; nothing is added to it.  The
    configuration-set name is the call's. *)
Theorem named_variables (args : SendArgs) (r : Resolved) :
  _sendMail_prepare this (send_options args) = inr r ->
  (s_variables args = JUndefined -> r_templateVars r = empty_object) /\
  (s_variables args <> JUndefined -> r_templateVars r = s_variables args) /\
  r_configurationSetName r = s_configurationSetName args.
Proof.
  unfold _sendMail_prepare. simpl.
  repeat case_match; try discriminate; intros [= <-]; simpl;
    repeat split; intros; congruence.
Qed.

(** X17: A complete named request whose template has no HTML path and whose
    plain-text body loads and interpolates is delivered: one read, then
    one send of the composed payload to the adapter's client; the promise
    settles as the transport answers. *)
Theorem named_delivery (args : SendArgs) (template : Template)
    (content text : string) :
  truthy (s_templateName args) = true ->
  this_templates this !! to_string (s_templateName args) = Some template ->
  truthy (s_subject args) = true \/ truthy (tpl_subject template) = true ->
  truthy (s_recipient args) = true ->
  truthy (tpl_pathHtml template) = false ->
  readFile w (tpl_pathPlainText template) = inr content ->
  lodash_template w content (o_variables (send_options args)) = inr text ->
  send w this args =
    (Returns
       (match ses_send w (this_ses this)
                {| p_from := or (s_fromAddress args) (this_fromAddress this);
                   p_to := [s_recipient args];
                   p_subject := or (s_subject args) (tpl_subject template);
                   p_body_text := JStr text;
                   p_body_html := JUndefined;
                   p_ConfigurationSetName := s_configurationSetName args |} with
        | inl error => Rejected error
        | inr data => Fulfilled data
        end),
     [EvReadFile (tpl_pathPlainText template);
      EvSend (this_ses this)
        {| p_from := or (s_fromAddress args) (this_fromAddress this);
           p_to := [s_recipient args];
           p_subject := or (s_subject args) (tpl_subject template);
           p_body_text := JStr text;
           p_body_html := JUndefined;
           p_ConfigurationSetName := s_configurationSetName args |}]).
Proof.
  intros Hn Ht Hsub Hr Hh Hc Hi.
  pose proof (prepare_named this (send_options args) template Hn Ht) as Hp.
  simpl in Hp. rewrite Hr in Hp.
  replace (negb (truthy (s_subject args)) && negb (truthy (tpl_subject template)))
    with false in Hp
    by (destruct Hsub as [-> | ->]; simpl; rewrite ?andb_false_r; reflexivity).
  simpl negb in Hp. cbv iota in Hp. unfold send.
  match type of Hp with
  | _ = inr ?r =>
      assert (_sendMail_compose w r [] =
        (inr {| p_from := or (s_fromAddress args) (this_fromAddress this);
                p_to := [s_recipient args];
                p_subject := or (s_subject args) (tpl_subject template);
                p_body_text := JStr text;
                p_body_html := JUndefined;
                p_ConfigurationSetName := s_configurationSetName args |},
         [EvReadFile (tpl_pathPlainText template)])) as Hcomp
  end.
  { unfold _sendMail_compose, loadEmailTemplate, io_bind, io_emit, io_lift, io_ret.
    cbn [r_pathPlainText r_templateVars r_pathHtml r_message r_htmlInliner
         r_configurationSetName msg_from msg_to msg_subject app].
    simpl in Hi. rewrite Hc, Hi, Hh. reflexivity. }
  rewrite (sendMail_returns w this _ _ _ _ Hp Hcomp). reflexivity.
Qed.

End NamedMore.

Lemma named_variables_witness :
  (JNull = JUndefined -> JNull = empty_object) /\
  (JNull <> JUndefined -> JNull = JNull) /\
  JStr "news" = JStr "news".
Proof.
  refine (named_variables Sample.adapter Cases.welcomeArgs
            {| r_message := mkMessage (JStr "team@x.org") (JStr "a@b.com") (JStr "Hello");
               r_templateVars := JNull;
               r_pathPlainText := JStr "welcome.txt";
               r_pathHtml := JUndefined;
               r_htmlInliner := JUndefined;
               r_configurationSetName := JStr "news" |} _).
  reflexivity.
Defined.

Lemma named_delivery_witness :
  send Sample.world Sample.adapter Cases.welcomeArgs =
    (Returns (Fulfilled (JStr "MessageId")),
     [EvReadFile (JStr "welcome.txt");
      EvSend (this_ses Sample.adapter)
        {| p_from := JStr "team@x.org";
           p_to := [JStr "a@b.com"];
           p_subject := JStr "Hello";
           p_body_text := JStr "Welcome";
           p_body_html := JUndefined;
           p_ConfigurationSetName := JStr "news" |}]).
Proof.
  refine (named_delivery Sample.world Sample.adapter Cases.welcomeArgs
            Sample.welcomeTemplate "Welcome" "Welcome" _ _ _ _ _ _ _);
    first [reflexivity | left; reflexivity].
Defined.

(** ** The two classes of the file agree *)

Section TwoClasses.

(** X19: The constructors validate alike and build corresponding adapters. *)
Theorem constructors_agree (arg : option Options) :
  ES.constructor arg =
    match constructor arg with
    | inl e => inl e
    | inr a => inr (adapter_of a)
    end.
Proof.
  unfold ES.constructor, constructor.
  destruct (negb (truthy (opt_accessKeyId (default default_options arg)))
            || negb (truthy (opt_secretAccessKey (default default_options arg)))
            || negb (truthy (opt_region (default default_options arg)))
            || negb (truthy (opt_fromAddress (default default_options arg))));
    [reflexivity|].
  destruct (forEach _ _); reflexivity.
Qed.

Lemma adapter_of_onto (this : ES.Adapter) :
  exists lib, this = adapter_of lib.
Proof.
  destruct this as [[[a s] r] f ts].
  exists {| this_ses := mkSesClient a s r; this_fromAddress := f;
            this_templates := ts |}.
  reflexivity.
Qed.

(** The synchronous parts agree: the same exceptions in the same cases,
    and the same message, variables, paths and inlining flag; the ES
    source keeps no configuration-set name. *)
Lemma preparations_agree (this : Adapter) (options : MailOptions) :
  ES._sendMail_prepare (adapter_of this) options =
    match _sendMail_prepare this options with
    | inl e => inl e
    | inr r => inr (forget r)
    end.
Proof.
  unfold ES._sendMail_prepare, _sendMail_prepare. simpl.
  repeat case_match; reflexivity.
Qed.

Lemma compositions_agree (w : ES.World) (r : Resolved) :
  ES._sendMail_compose w (forget r) [] =
    (match fst (_sendMail_compose (world_under w) r []) with
     | inl e => inl e
     | inr payload => inr (reshape payload)
     end,
     List.map event_of (snd (_sendMail_compose (world_under w) r []))).
Proof.
  unfold ES._sendMail_compose, _sendMail_compose, ES.loadEmailTemplate,
    loadEmailTemplate, ES.io_bind, io_bind, ES.io_emit, io_emit, ES.io_lift,
    io_lift, ES.io_ret, io_ret.
  simpl.
  destruct (ES.readFile w (r_pathPlainText r)) as [e|content]; [reflexivity|].
  destruct (ES.lodash_template w content (r_templateVars r)) as [e|text];
    [reflexivity|].
  destruct (truthy (r_pathHtml r)); simpl; [|reflexivity].
  destruct (ES.readFile w (r_pathHtml r)) as [e|src]; [reflexivity|].
  destruct (ES.lodash_template w src (r_templateVars r)) as [e|compiled];
    [reflexivity|].
  destruct (truthy (r_htmlInliner r)); simpl; [|reflexivity].
  destruct (ES.juice w compiled); reflexivity.
Qed.

Lemma sendMail_sim (w : ES.World) (this : Adapter) (options : MailOptions) :
  ES._sendMail w (adapter_of this) options =
    (fst (_sendMail (world_under w) this options),
     List.map event_of (snd (_sendMail (world_under w) this options))).
Proof.
  unfold ES._sendMail, _sendMail. rewrite preparations_agree.
  destruct (_sendMail_prepare this options) as [e|r]; [reflexivity|].
  rewrite compositions_agree.
  destruct (_sendMail_compose (world_under w) r []) as [[e|payload] tr]; simpl;
    rewrite List.map_app; reflexivity.
Qed.

(** X20: Every adapter of the ES source corresponds to one of the compiled
    class, and on corresponding adapters [_sendMail] behaves alike: the
    same outcome and, event by event, the same trace, when the compiled
    class runs against a transport that reshapes its payload for
    [sendEmail] and so drops the configuration-set name. *)
Theorem sendMail_agree (this : ES.Adapter) :
  exists lib,
    this = adapter_of lib /\
    forall (w : ES.World) (options : MailOptions),
      ES._sendMail w this options =
        (fst (_sendMail (world_under w) lib options),
         List.map event_of (snd (_sendMail (world_under w) lib options))).
Proof.
  destruct (adapter_of_onto this) as [lib ->]. exists lib.
  split; [reflexivity|]. intros w options. apply sendMail_sim.
Qed.

(** X21: The three entry points agree in the same sense; for [send] this
    includes that the configuration-set name of the call, which the ES
    source does not read, has no effect there. *)
Theorem entry_points_agree (w : ES.World) (this : Adapter) :
  (forall args,
     ES.sendPasswordResetEmail w (adapter_of this) args =
       (fst (sendPasswordResetEmail (world_under w) this args),
        List.map event_of (snd (sendPasswordResetEmail (world_under w) this args)))) /\
  (forall args,
     ES.sendVerificationEmail w (adapter_of this) args =
       (fst (sendVerificationEmail (world_under w) this args),
        List.map event_of (snd (sendVerificationEmail (world_under w) this args)))) /\
  (forall args,
     ES.send w (adapter_of this) args =
       (fst (send (world_under w) this args),
        List.map event_of (snd (send (world_under w) this args)))).
Proof.
  split; [|split]; intros args.
  - unfold ES.sendPasswordResetEmail, sendPasswordResetEmail. apply sendMail_sim.
  - unfold ES.sendVerificationEmail, sendVerificationEmail. apply sendMail_sim.
  - unfold ES.send, send. rewrite <- sendMail_sim.
    unfold ES._sendMail, ES._sendMail_prepare. reflexivity.
Qed.

End TwoClasses.

(** The password-reset mail through the ES source. *)
Example es_reset_mail :
  ES.sendPasswordResetEmail Cases.v2World (adapter_of Sample.adapter)
    (Sample.resetArgs Sample.ann) =
  (Returns (Fulfilled (JStr "MessageId")),
   [ES.EvReadFile (JStr "reset.txt");
    ES.EvSendEmail (client_of (this_ses Sample.adapter))
      {| ES.Content :=
           {| ES.Simple :=
                {| ES.Body :=
                     {| ES.Html := {| ES.Data := JUndefined |};
                        ES.Text := {| ES.Data := JStr "Reset via {{link}}" |} |};
                   ES.Subject := {| ES.Data := JStr "Reset" |} |} |};
         ES.Destination := {| ES.ToAddresses := [JStr "a@b.com"] |};
         ES.FromEmailAddress := JStr "noreply@x.org" |}]).
Proof. reflexivity. Qed.

(** ** When [send] returns a promise *)

Section NamedResolution.

Context (this : Adapter).

(** X18: [send] gets past its validation exactly when the template name is
    truthy and found in [this.templates], a subject is available from the
    call or from the template, and a recipient is given; in every other
    case it throws and returns no promise.  A name is found when it is a
    key of the templates, or else when it is one of the names every
    object inherits, which then stands for a template without subject
    and without paths. *)
Theorem send_resolves_iff (args : SendArgs) :
  (exists r, _sendMail_prepare this (send_options args) = inr r) <->
  truthy (s_templateName args) = true /\
  exists template,
    (this_templates this !! to_string (s_templateName args) = Some template \/
     (this_templates this !! to_string (s_templateName args) = None /\
      In (to_string (s_templateName args)) Object_prototype_names /\
      template = inherited_template)) /\
    (truthy (s_subject args) = true \/ truthy (tpl_subject template) = true) /\
    truthy (s_recipient args) = true.
Proof.
  assert (forall template,
    (this_templates this !! to_string (s_templateName args) = Some template \/
     (this_templates this !! to_string (s_templateName args) = None /\
      In (to_string (s_templateName args)) Object_prototype_names /\
      template = inherited_template)) <->
    templates_get (this_templates this) (to_string (s_templateName args))
      = Some template) as Hget.
  { intros template. split.
    - intros [Hown | (Hnone & Hin & ->)].
      + apply templates_get_own. exact Hown.
      + apply templates_get_inherited; assumption.
    - unfold templates_get.
      destruct (this_templates this !! to_string (s_templateName args))
        as [own|] eqn:Hown; [intros [= <-]; left; reflexivity|].
      destruct (existsb _ Object_prototype_names) eqn:He; [|discriminate].
      intros [= <-]. right. split; [reflexivity|]. split; [|reflexivity].
      apply existsb_exists in He. destruct He as (name & Hin & Heq).
      apply String.eqb_eq in Heq. subst name. exact Hin. }
  unfold _sendMail_prepare. simpl.
  destruct (truthy (s_templateName args)) eqn:Hn.
  - destruct (templates_get (this_templates this) (to_string (s_templateName args)))
      as [template|] eqn:Ht.
    + destruct (truthy (s_subject args)) eqn:Hs;
        destruct (truthy (tpl_subject template)) eqn:Hts;
        destruct (truthy (s_recipient args)) eqn:Hr; simpl;
        (split;
         [ intros [r Hres];
           first [ discriminate Hres
                 | split; [reflexivity|]; exists template;
                   split; [apply Hget; reflexivity|];
                   split; [auto | reflexivity] ]
         | intros (_ & template' & Heq & Hsub & Hrec);
           apply Hget in Heq;
           first [ eexists; reflexivity
                 | congruence
                 | destruct Hsub; congruence ] ]).
    + split; [intros [r Hres]; discriminate Hres|].
      intros (_ & template & Habs & _). apply Hget in Habs. discriminate Habs.
  - split; [intros [r Hres]; discriminate Hres|].
    intros (Habs & _). discriminate Habs.
Qed.

End NamedResolution.

Lemma send_resolves_iff_witness :
  exists r,
    _sendMail_prepare Sample.adapter
      (send_options (Sample.sendArgs (JStr "toString") (JStr "Hi") (JStr "a@b.com")))
      = inr r.
Proof.
  apply (proj2 (send_resolves_iff Sample.adapter
                  (Sample.sendArgs (JStr "toString") (JStr "Hi") (JStr "a@b.com")))).
  split; [reflexivity|]. exists inherited_template. split.
  - right. split; [reflexivity|]. split; [|reflexivity].
    simpl. tauto.
  - split; [left|]; reflexivity.
Defined.
